(** * Otime Discovery: location resolution and time conversion

    A shallow embedding of [src/services/gemini.service.ts] and
    [src/app.component.ts], followed by the properties of the
    specification that can be stated about them.

    The embedding keeps the run-time view of the TypeScript code:
    strings are sequences of UTF-16 code units, the parsed service
    response is an untyped JSON value, a [Date] is a time value in
    milliseconds (or invalid), a JavaScript exception is an explicit
    completion, and the host (remote service, [JSON], [Intl], [Date]) is
    a record of functions every statement quantifies over. *)

From Stdlib Require Import ZArith NArith List Bool String Ascii Lia.
From Stdlib Require Import Floats.SpecFloat.
Import ListNotations.

Local Open Scope Z_scope.

(** ** Run-time values *)

Module JS.

(** A string is its sequence of UTF-16 code units; [length] is the
    JavaScript [length]. *)
Definition JSString := list N.

(** An ASCII literal of the source as code units. *)
Definition lit (s : string) : JSString :=
  map N_of_ascii (list_ascii_of_string s).

Fixpoint eqb (s t : JSString) : bool :=
  match s, t with
  | [], [] => true
  | a :: s', b :: t' => N.eqb a b && eqb s' t'
  | _, _ => false
  end.

(** WhiteSpace and LineTerminator code points of ECMAScript, the ones
    [String.prototype.trim] removes. *)
Definition is_white (c : N) : bool :=
  existsb (N.eqb c)
    [9; 10; 11; 12; 13; 32; 160; 5760; 8232; 8233; 8239; 8287; 12288; 65279]%N
  || (N.leb 8192 c && N.leb c 8202).

Fixpoint trimStart (s : JSString) : JSString :=
  match s with
  | c :: s' => if is_white c then trimStart s' else s
  | [] => []
  end.

Definition trim (s : JSString) : JSString :=
  rev (trimStart (rev (trimStart s))).

(** [s.split(sep)] for a one-unit separator: the pieces between the
    occurrences of [sep], at least one piece. *)
Fixpoint split (sep : N) (s : JSString) : list JSString :=
  match s with
  | [] => [[]]
  | c :: s' =>
      if N.eqb c sep then [] :: split sep s'
      else match split sep s' with
           | piece :: rest => (c :: piece) :: rest
           | [] => [[c]]
           end
  end.

(** IEEE 754 binary64, the Number type. *)
Definition Number := spec_float.
Definition prec := 53.
Definition emax := 1024.

(** The Number nearest to an integer. *)
Definition Number_of_Z (z : Z) : Number := binary_normalize prec emax z 0 false.

Definition Number_div (x y : Number) : Number := SFdiv prec emax x y.

(** What [JSON.parse] can return, and [undefined] for a missing property. *)
#[local] Unset Elimination Schemes.
Inductive JSValue :=
| JSUndefined
| JSNull
| JSBool (b : bool)
| JSNumber (x : Number)
| JSStr (s : JSString)
| JSArray (items : list JSValue)
| JSObject (props : list (JSString * JSValue)).
#[local] Set Elimination Schemes.

(** ToBoolean: what [!v] and [if (v)] test. *)
Definition ToBoolean (v : JSValue) : bool :=
  match v with
  | JSUndefined | JSNull => false
  | JSBool b => b
  | JSNumber (S754_zero _) | JSNumber S754_nan => false
  | JSNumber _ => true
  | JSStr s => negb (eqb s [])
  | JSArray _ | JSObject _ => true
  end.

Inductive JSError := TypeError | SyntaxError | RangeError | Rejection.

(** A completion: a value, or a thrown exception (a rejected promise). *)
Inductive Completion (A : Type) :=
| Returned (a : A)
| Threw (e : JSError).
Arguments Returned {A} a.
Arguments Threw {A} e.

Definition bind {A B} (c : Completion A) (k : A -> Completion B) : Completion B :=
  match c with
  | Returned a => k a
  | Threw e => Threw e
  end.

(** [try { c } catch (e) { h }] where the handler ignores the error. *)
Definition try_catch {A} (c : Completion A) (h : A) : A :=
  match c with
  | Returned a => a
  | Threw _ => h
  end.

Fixpoint lookup (key : JSString) (props : list (JSString * JSValue)) : option JSValue :=
  match props with
  | [] => None
  | (k, v) :: rest => if eqb k key then Some v else lookup key rest
  end.

(** [data.name] for the property names the service reads; none of them
    is defined on the prototypes of primitives, arrays or objects, so
    only the own properties of an object answer. Reading a property of
    [null] or [undefined] throws. *)
Definition Get (data : JSValue) (name : JSString) : Completion JSValue :=
  match data with
  | JSUndefined | JSNull => Threw TypeError
  | JSObject props =>
      Returned (match lookup name props with Some v => v | None => JSUndefined end)
  | _ => Returned JSUndefined
  end.

End JS.

Import JS.

Declare Scope js_scope.
Delimit Scope js_scope with js.
Notation "x <- c ;; k" := (bind c (fun x => k))
  (at level 61, c at next level, right associativity) : js_scope.
Local Open Scope js_scope.

(** ** The host *)

(** The request of [ai.models.generateContent]: model name and prompt.
    The response schema sent along is the constant [responseSchema]. *)
Record Request := {
  model : JSString;
  contents : JSString
}.

(** What awaiting the remote call gives: a rejection (network error,
    HTTP error, any throw), or a response whose [text] may be missing. *)
Inductive RemoteOutcome :=
| Rejected
| Replied (text : option JSString).

Record Platform := {
  (** the remote text-generation service *)
  generateContent : Request -> RemoteOutcome;
  (** [JSON.parse]; [None] is a SyntaxError *)
  JSON_parse : JSString -> option JSValue;
  (** [new Intl.DateTimeFormat('en-US', {timeZone, ...}).formatToParts(t)]
      with the options of [updateTimeForSource], as (type, value) pairs;
      [None] is the RangeError of an unknown time zone *)
  Intl_formatToParts : JSValue -> Z -> option (list (JSString * JSString));
  (** [t.toLocaleString('en-US', {timeZone, hour12: false})]; [None] is
      the RangeError of an unknown time zone *)
  Date_toLocaleString : JSValue -> Z -> option JSString;
  (** the time value of [new Date(string)]; [None] is an Invalid Date *)
  Date_parse : JSString -> option Z;
  (** [getDate()] of a valid date: the day of the month in the host zone *)
  Date_getDate : Z -> Z;
  (** the formatter of [formatDate] applied to a valid date *)
  Intl_format : Z -> JSString;
  (** Number::toString of a finite Number *)
  Number_toString : Number -> JSString
}.

(** ** gemini.service.ts *)

(** The object [resolveLocation] builds. The interface declares six
    strings; at run time each field is whatever the parsed response
    holds under that name, [undefined] when the name is missing. *)
Record LocationInfo := {
  ianaTimezone : JSValue;
  fullName : JSValue;
  city : JSValue;
  country : JSValue;
  countryCode : JSValue;
  funFact : JSValue
}.

Module GeminiService.

Inductive SchemaType := STRING | BOOLEAN.

(** [config.responseSchema]: the properties, all of them required. *)
Definition responseSchema : list (JSString * SchemaType) :=
  [ (lit "ianaTimezone", STRING); (lit "fullName", STRING); (lit "city", STRING);
    (lit "country", STRING); (lit "countryCode", STRING); (lit "funFact", STRING);
    (lit "valid", BOOLEAN) ].

Definition has_type (t : SchemaType) (v : JSValue) : bool :=
  match t, v with
  | STRING, JSStr _ => true
  | BOOLEAN, JSBool _ => true
  | _, _ => false
  end.

(** A body conforms to the schema when it is an object that has every
    required property with a value of the declared type. *)
Definition conforms (data : JSValue) : bool :=
  match data with
  | JSObject props =>
      forallb (fun '(name, t) =>
                 match lookup name props with
                 | Some v => has_type t v
                 | None => false
                 end) responseSchema
  | _ => false
  end.

Definition quote : JSString := [34%N].
Definition newline : JSString := [10%N].

Definition prompt (query : JSString) : JSString :=
  lit "Identify the most likely IANA timezone identifier (e.g., 'America/New_York', 'Europe/Paris', 'Asia/Tokyo') for the location query: "
  ++ quote ++ query ++ quote ++ lit ". " ++ newline
  ++ lit "      Also provide the official full name of the location (City, Country format), just the city name, just the country name, the 2-letter ISO 3166-1 country code (lowercase), and a very short, 1-sentence interesting fun fact about time or culture in this place."
  ++ newline
  ++ lit "      If the location is invalid or cannot be determined, return null.".

Definition request (query : JSString) : Request :=
  {| model := lit "gemini-2.5-flash"; contents := prompt query |}.

(** [response.text || '{}'] *)
Definition text_or_default (text : option JSString) : JSString :=
  match text with
  | Some ((_ :: _) as t) => t
  | _ => lit "{}"
  end.

(** The statements of the [try] block, from the awaited call on. *)
Definition resolveLocation_try (P : Platform) (query : JSString)
  : Completion (option LocationInfo) :=
  match generateContent P (request query) with
  | Rejected => Threw Rejection
  | Replied text =>
      match JSON_parse P (text_or_default text) with
      | None => Threw SyntaxError
      | Some data =>
          valid <- Get data (lit "valid") ;;
          if negb (ToBoolean valid) then Returned None
          else
            tz <- Get data (lit "ianaTimezone") ;;
            fn <- Get data (lit "fullName") ;;
            ci <- Get data (lit "city") ;;
            co <- Get data (lit "country") ;;
            cc <- Get data (lit "countryCode") ;;
            ff <- Get data (lit "funFact") ;;
            Returned (Some {| ianaTimezone := tz; fullName := fn; city := ci;
                              country := co; countryCode := cc; funFact := ff |})
      end
  end.

(** [resolveLocation(query)]: what the returned promise settles to, and
    the requests sent to the remote service on the way. *)
Definition resolveLocation (P : Platform) (query : JSString)
  : Completion (option LocationInfo) * list Request :=
  if eqb query [] || (Nat.ltb (List.length (trim query)) 2) then (Returned None, [])
  else (Returned (try_catch (resolveLocation_try P query) None), [request query]).

End GeminiService.

Import GeminiService.

(** ** Numbers and dates of app.component.ts *)

Module JSDate.

(** The time value of a [Date]: milliseconds since the epoch, or [None]
    for an Invalid Date (a NaN time value). *)
Definition TimeValue := option Z.

Definition maxTime : Z := 8640000000000000.

Definition TimeClip (t : Z) : TimeValue :=
  if Z.abs t <=? maxTime then Some t else None.

(** [new Date(s)] *)
Definition Date_of_string (P : Platform) (s : JSString) : TimeValue :=
  match Date_parse P s with
  | Some t => TimeClip t
  | None => None
  end.

(** [a.getTime() - b.getTime()]: NaN when a date is invalid, otherwise
    the exact difference of the two integers rounded to binary64. *)
Definition time_diff (a b : TimeValue) : Number :=
  match a, b with
  | Some x, Some y => Number_of_Z (x - y)
  | _, _ => S754_nan
  end.

(** The integer below a finite Number, in absolute value. *)
Definition floor_abs (m : positive) (e : Z) : Z :=
  if 0 <=? e then Z.pos m * 2 ^ e else Z.pos m / 2 ^ (- e).

Definition Z_of_Number (x : Number) : option Z :=
  match x with
  | S754_zero _ => Some 0
  | S754_finite s m e => Some (cond_Zopp s (floor_abs m e))
  | _ => None
  end.

(** [new Date(t.getTime() + x)] for an integral [x]: the sum of two
    integral Numbers is their exact sum rounded to binary64, and
    TimeClip keeps it exactly when the exact sum is within range, where
    every integer is a Number. *)
Definition time_plus (t : TimeValue) (x : Number) : TimeValue :=
  match t, Z_of_Number x with
  | Some i, Some d => TimeClip (i + d)
  | _, _ => None
  end.

(** [d.getDate()]: NaN for an Invalid Date. *)
Definition getDate (P : Platform) (d : TimeValue) : option Z :=
  option_map (Date_getDate P) d.

(** [a !== b] on Numbers that are integers or NaN. *)
Definition strict_neq (a b : option Z) : bool :=
  match a, b with
  | Some x, Some y => negb (x =? y)
  | _, _ => true
  end.

Fixpoint units (d : Decimal.uint) : JSString :=
  match d with
  | Decimal.Nil => []
  | Decimal.D0 d' => 48%N :: units d'
  | Decimal.D1 d' => 49%N :: units d'
  | Decimal.D2 d' => 50%N :: units d'
  | Decimal.D3 d' => 51%N :: units d'
  | Decimal.D4 d' => 52%N :: units d'
  | Decimal.D5 d' => 53%N :: units d'
  | Decimal.D6 d' => 54%N :: units d'
  | Decimal.D7 d' => 55%N :: units d'
  | Decimal.D8 d' => 56%N :: units d'
  | Decimal.D9 d' => 57%N :: units d'
  end.

(** The decimal digits of a natural number, ["0"] for zero. *)
Definition decimal (n : Z) : JSString := units (N.to_uint (Z.to_N n)).

(** The integer nearest to ten times a positive finite Number, the
    larger one of two: the [n] of Number.prototype.toFixed for one
    fraction digit. *)
Definition tenths (m : positive) (e : Z) : Z :=
  if 0 <=? e then 10 * Z.pos m * 2 ^ e
  else (20 * Z.pos m + 2 ^ (- e)) / 2 ^ (1 - e).

(** [x.toFixed(1)]: a Number that is not finite prints as Number::toString
    prints it, a finite one as its sign, then either the digits of [n]
    with a point before the last one or, from 10^21 on, what
    Number::toString makes of the absolute value. *)
Definition toFixed1 (P : Platform) (x : Number) : JSString :=
  match x with
  | S754_nan => lit "NaN"
  | S754_infinity s => (if s then lit "-" else []) ++ lit "Infinity"
  | S754_zero _ => lit "0.0"
  | S754_finite s m e =>
      (if s then lit "-" else [])
      ++ (if 10 ^ 21 <=? floor_abs m e
          then Number_toString P (S754_finite false m e)
          else let n := tenths m e in
               decimal (n / 10) ++ lit "." ++ decimal (n mod 10))
  end.

End JSDate.

Import JSDate.

(** ** app.component.ts *)

Record ConversionResult := {
  sourceTimeDisplay : JSString;
  targetTimeDisplay : JSString;
  diffHours : JSString;
  isNextDay : bool
}.

(** The signals of the component. A query signal holds what was last
    stored in it, which after a resolution is [result.fullName]. *)
Record AppComponent := {
  sourceQuery : JSValue;
  targetQuery : JSValue;
  sourceLocation : option LocationInfo;
  targetLocation : option LocationInfo;
  isLoadingSource : bool;
  isLoadingTarget : bool;
  selectedDate : JSString;
  error : option JSString
}.

Module App.

Definition set_sourceQuery (v : JSValue) (c : AppComponent) : AppComponent :=
  {| sourceQuery := v; targetQuery := targetQuery c;
     sourceLocation := sourceLocation c; targetLocation := targetLocation c;
     isLoadingSource := isLoadingSource c; isLoadingTarget := isLoadingTarget c;
     selectedDate := selectedDate c; error := error c |}.

Definition set_targetQuery (v : JSValue) (c : AppComponent) : AppComponent :=
  {| sourceQuery := sourceQuery c; targetQuery := v;
     sourceLocation := sourceLocation c; targetLocation := targetLocation c;
     isLoadingSource := isLoadingSource c; isLoadingTarget := isLoadingTarget c;
     selectedDate := selectedDate c; error := error c |}.

Definition set_sourceLocation (l : option LocationInfo) (c : AppComponent) : AppComponent :=
  {| sourceQuery := sourceQuery c; targetQuery := targetQuery c;
     sourceLocation := l; targetLocation := targetLocation c;
     isLoadingSource := isLoadingSource c; isLoadingTarget := isLoadingTarget c;
     selectedDate := selectedDate c; error := error c |}.

Definition set_targetLocation (l : option LocationInfo) (c : AppComponent) : AppComponent :=
  {| sourceQuery := sourceQuery c; targetQuery := targetQuery c;
     sourceLocation := sourceLocation c; targetLocation := l;
     isLoadingSource := isLoadingSource c; isLoadingTarget := isLoadingTarget c;
     selectedDate := selectedDate c; error := error c |}.

Definition set_isLoadingSource (b : bool) (c : AppComponent) : AppComponent :=
  {| sourceQuery := sourceQuery c; targetQuery := targetQuery c;
     sourceLocation := sourceLocation c; targetLocation := targetLocation c;
     isLoadingSource := b; isLoadingTarget := isLoadingTarget c;
     selectedDate := selectedDate c; error := error c |}.

Definition set_isLoadingTarget (b : bool) (c : AppComponent) : AppComponent :=
  {| sourceQuery := sourceQuery c; targetQuery := targetQuery c;
     sourceLocation := sourceLocation c; targetLocation := targetLocation c;
     isLoadingSource := isLoadingSource c; isLoadingTarget := b;
     selectedDate := selectedDate c; error := error c |}.

Definition set_selectedDate (d : JSString) (c : AppComponent) : AppComponent :=
  {| sourceQuery := sourceQuery c; targetQuery := targetQuery c;
     sourceLocation := sourceLocation c; targetLocation := targetLocation c;
     isLoadingSource := isLoadingSource c; isLoadingTarget := isLoadingTarget c;
     selectedDate := d; error := error c |}.

Definition set_error (e : option JSString) (c : AppComponent) : AppComponent :=
  {| sourceQuery := sourceQuery c; targetQuery := targetQuery c;
     sourceLocation := sourceLocation c; targetLocation := targetLocation c;
     isLoadingSource := isLoadingSource c; isLoadingTarget := isLoadingTarget c;
     selectedDate := selectedDate c; error := e |}.

(** [parts.find(p => p.type === type)?.value] inside a template
    literal, where a missing part prints as [undefined]. *)
Fixpoint getPart (parts : list (JSString * JSString)) (type : JSString) : JSString :=
  match parts with
  | [] => lit "undefined"
  | (t, value) :: rest => if eqb t type then value else getPart rest type
  end.

Definition isoLocal (parts : list (JSString * JSString)) : JSString :=
  getPart parts (lit "year") ++ lit "-" ++ getPart parts (lit "month") ++ lit "-"
  ++ getPart parts (lit "day") ++ lit "T" ++ getPart parts (lit "hour") ++ lit ":"
  ++ getPart parts (lit "minute").

(** [updateTimeForSource(timeZone)] run at the instant [now]; the
    [catch] only logs. *)
Definition updateTimeForSource (P : Platform) (now : Z) (timeZone : JSValue)
    (c : AppComponent) : AppComponent :=
  match Intl_formatToParts P timeZone now with
  | Some parts => set_selectedDate (isoLocal parts) c
  | None => c
  end.

(** An [async] method runs up to its [await] and is resumed later, on
    the state the component has by then. *)
Inductive Started :=
| Finished (c : AppComponent)
| Awaiting (c : AppComponent).

Definition notFound (query : JSString) : JSString :=
  lit "Could not find location: " ++ query.

(** [resolveSource(query)] up to [await resolveLocation(query)], where
    [query] is the string the method runs with, whether passed by the
    caller or taken from the query signal by the default parameter. *)
Definition resolveSource_start (query : JSString) (c : AppComponent) : Started :=
  if eqb query [] then Finished c
  else Awaiting (set_sourceQuery (JSStr query)
                   (set_error None (set_isLoadingSource true c))).

(** The rest of [resolveSource(query)], resumed at the instant [now]
    with what the awaited promise settled to. *)
Definition resolveSource_resume (P : Platform) (now : Z) (query : JSString)
    (r : Completion (option LocationInfo)) (c : AppComponent) : AppComponent :=
  set_isLoadingSource false
    match r with
    | Returned (Some result) =>
        updateTimeForSource P now (ianaTimezone result)
          (set_sourceQuery (fullName result) (set_sourceLocation (Some result) c))
    | Returned None => set_error (Some (notFound query)) c
    | Threw _ => set_error (Some (lit "Failed to resolve source location.")) c
    end.

(** [resolveTarget(query)], in the same two parts; it does not touch
    the selected date. *)
Definition resolveTarget_start (query : JSString) (c : AppComponent) : Started :=
  if eqb query [] then Finished c
  else Awaiting (set_targetQuery (JSStr query)
                   (set_error None (set_isLoadingTarget true c))).

Definition resolveTarget_resume (query : JSString)
    (r : Completion (option LocationInfo)) (c : AppComponent) : AppComponent :=
  set_isLoadingTarget false
    match r with
    | Returned (Some result) =>
        set_targetQuery (fullName result) (set_targetLocation (Some result) c)
    | Returned None => set_error (Some (notFound query)) c
    | Threw _ => set_error (Some (lit "Failed to resolve target location.")) c
    end.

(** A whole resolution attempt with nothing else running in between:
    the final state and the requests sent. *)
Definition resolveSource (P : Platform) (now : Z) (query : JSString)
    (c : AppComponent) : AppComponent * list Request :=
  match resolveSource_start query c with
  | Finished c' => (c', [])
  | Awaiting c' =>
      let '(r, sent) := resolveLocation P query in
      (resolveSource_resume P now query r c', sent)
  end.

Definition resolveTarget (P : Platform) (query : JSString)
    (c : AppComponent) : AppComponent * list Request :=
  match resolveTarget_start query c with
  | Finished c' => (c', [])
  | Awaiting c' =>
      let '(r, sent) := resolveLocation P query in
      (resolveTarget_resume query r c', sent)
  end.

(** [swapLocations()] run at the instant [now] *)
Definition swapLocations (P : Platform) (now : Z) (c : AppComponent) : AppComponent :=
  let sLoc := sourceLocation c in
  let tLoc := targetLocation c in
  let sQ := sourceQuery c in
  let tQ := targetQuery c in
  let c := set_sourceLocation tLoc c in
  let c := set_targetLocation sLoc c in
  let c := set_sourceQuery tQ c in
  let c := set_targetQuery sQ c in
  match tLoc with
  | Some t => updateTimeForSource P now (ianaTimezone t) c
  | None => c
  end.

(** [formatDate(date)]: the formatter throws on an Invalid Date. *)
Definition formatDate (P : Platform) (date : TimeValue) : Completion JSString :=
  match date with
  | Some t => Returned (Intl_format P t)
  | None => Threw RangeError
  end.

Definition toLocaleString (P : Platform) (timeZone : JSValue) (t : Z)
  : Completion JSString :=
  match Date_toLocaleString P timeZone t with
  | Some s => Returned s
  | None => Threw RangeError
  end.

(** [1000 * 60 * 60] *)
Definition msPerHour : Z := 1000 * 60 * 60.

(** The mantissa of [msPerHour] as a Number, whose exponent is -31. *)
Definition hourMantissa : positive := 7730941132800000.

(** The [try] block of [convertedResult], evaluated at the instant
    [now]. Of the destructured date and time parts only the time part
    matters: [timePart.split] throws when the string has no ['T'], and
    the numbers read from the parts are not used. *)
Definition convertedResult_try (P : Platform) (now : Z) (src tgt : LocationInfo)
    (dateStr : JSString) : Completion ConversionResult :=
  timePart <- match nth_error (split 84%N dateStr) 1 with
              | Some p => Returned p
              | None => Threw TypeError
              end ;;
  srcStr <- toLocaleString P (ianaTimezone src) now ;;
  tgtStr <- toLocaleString P (ianaTimezone tgt) now ;;
  let srcDate := Date_of_string P srcStr in
  let tgtDate := Date_of_string P tgtStr in
  let diffMs := time_diff tgtDate srcDate in
  let inputWallTime := Date_of_string P dateStr in
  let targetWallTime := time_plus inputWallTime diffMs in
  s <- formatDate P inputWallTime ;;
  t <- formatDate P targetWallTime ;;
  Returned {| sourceTimeDisplay := s;
              targetTimeDisplay := t;
              diffHours := toFixed1 P (Number_div diffMs (Number_of_Z msPerHour));
              isNextDay := strict_neq (getDate P targetWallTime) (getDate P inputWallTime) |}.

(** The computed signal [convertedResult], evaluated at the instant
    [now] on the signals of [c]. *)
Definition convertedResult (P : Platform) (now : Z) (c : AppComponent)
  : option ConversionResult :=
  match sourceLocation c, targetLocation c with
  | Some src, Some tgt =>
      if eqb (selectedDate c) [] then None
      else try_catch
             (r <- convertedResult_try P now src tgt (selectedDate c) ;; Returned (Some r))
             None
  | _, _ => None
  end.

End App.

Import App.

(** ** A sample host

    A host in the UTC zone observed at one instant, 2024-06-15 14:00:00
    UTC, used to run the model on concrete inputs. Its functions are
    tables: on the arguments listed they answer as a JavaScript engine
    does at that instant, and the examples ask nothing else of them. *)

Module Sample.

Definition str (s : string) : JSValue := JSStr (lit s).

Definition show_value (v : JSValue) : JSString :=
  match v with
  | JSStr s => quote ++ s ++ quote
  | JSBool true => lit "true"
  | JSBool false => lit "false"
  | _ => lit "null"
  end.

Fixpoint show_props (props : list (JSString * JSValue)) : JSString :=
  match props with
  | [] => []
  | [(k, v)] => quote ++ k ++ quote ++ lit ":" ++ show_value v
  | (k, v) :: rest => quote ++ k ++ quote ++ lit ":" ++ show_value v ++ lit "," ++ show_props rest
  end.

(** The JSON text of a flat object of strings and booleans. *)
Definition show_object (props : list (JSString * JSValue)) : JSString :=
  lit "{" ++ show_props props ++ lit "}".

Definition body (tz name ci co cc fact : string) (valid : JSValue)
  : list (JSString * JSValue) :=
  [ (lit "ianaTimezone", str tz); (lit "fullName", str name); (lit "city", str ci);
    (lit "country", str co); (lit "countryCode", str cc); (lit "funFact", str fact);
    (lit "valid", valid) ].

Definition london_body :=
  body "Europe/London" "London, United Kingdom" "London" "United Kingdom" "gb"
       "Greenwich in London is the home of the prime meridian." (JSBool true).

Definition newyork_body :=
  body "America/New_York" "New York, United States" "New York" "United States" "us"
       "The Times Square ball has dropped every New Year's Eve since 1907." (JSBool true).

Definition elbonia_body :=
  body "Mars/Phobos" "Elbonia" "Elbonia" "Elbonia" "eb" "Nobody knows the time there."
       (JSBool true).

(** The answer for a place the service does not know. *)
Definition unknown_body := body "" "" "" "" "" "" (JSBool false).

(** Bodies that do not conform to the schema. *)
Definition valid_only_body : list (JSString * JSValue) := [ (lit "valid", JSBool true) ].
Definition stringly_body :=
  body "Europe/London" "London, United Kingdom" "London" "United Kingdom" "gb"
       "Greenwich in London is the home of the prime meridian." (str "yes").

Definition bodies :=
  [ []; london_body; newyork_body; elbonia_body; unknown_body; valid_only_body;
    stringly_body ].

Fixpoint parse_among (known : list (list (JSString * JSValue))) (text : JSString)
  : option JSValue :=
  match known with
  | [] => None
  | b :: rest =>
      if eqb (show_object b) text then Some (JSObject b) else parse_among rest text
  end.

Definition parse (text : JSString) : option JSValue :=
  if eqb text (lit "null") then Some JSNull else parse_among bodies text.

Definition now : Z := 1718460000000.

Definition zone_is (tz : JSValue) (name : string) : bool :=
  match tz with
  | JSStr s => eqb s (lit name)
  | _ => false
  end.

Definition part (type value : string) : JSString * JSString := (lit type, lit value).

Definition parts_of (month day year hour minute : string) :=
  [ part "month" month; part "literal" "/"; part "day" day; part "literal" "/";
    part "year" year; part "literal" ", "; part "hour" hour; part "literal" ":";
    part "minute" minute ].

Definition formatToParts (tz : JSValue) (t : Z) : option (list (JSString * JSString)) :=
  if negb (t =? now) then None
  else if zone_is tz "Europe/London" then Some (parts_of "06" "15" "2024" "15" "00")
  else if zone_is tz "America/New_York" then Some (parts_of "06" "15" "2024" "10" "00")
  else None.

Definition localeString (tz : JSValue) (t : Z) : option JSString :=
  if negb (t =? now) then None
  else if zone_is tz "Europe/London" then Some (lit "6/15/2024, 15:00:00")
  else if zone_is tz "America/New_York" then Some (lit "6/15/2024, 10:00:00")
  else None.

Fixpoint assoc {A} (table : list (string * A)) (s : JSString) : option A :=
  match table with
  | [] => None
  | (k, a) :: rest => if eqb (lit k) s then Some a else assoc rest s
  end.

Definition date_parse : JSString -> option Z :=
  assoc [ ("6/15/2024, 15:00:00", 1718463600000);
          ("6/15/2024, 10:00:00", 1718445600000);
          ("2024-06-15T14:00", 1718460000000);
          ("2024-06-15T15:00", 1718463600000);
          ("2024-06-15T10:00", 1718445600000);
          ("2024-06-15T02:00", 1718416800000) ]%string.

(** The day of the month of a time value in UTC (the civil date of a
    day number, by the usual era arithmetic). *)
Definition utc_date (t : Z) : Z :=
  let z := t / 86400000 + 719468 in
  let doe := z mod 146097 in
  let yoe := (doe - doe / 1460 + doe / 36524 - doe / 146096) / 365 in
  let doy := doe - (365 * yoe + yoe / 4 - yoe / 100) in
  let mp := (5 * doy + 2) / 153 in
  doy - (153 * mp + 2) / 5 + 1.

Definition display (t : Z) : JSString :=
  if t =? 1718460000000 then lit "Sat, Jun 15, 2:00 PM"
  else if t =? 1718442000000 then lit "Sat, Jun 15, 9:00 AM"
  else if t =? 1718463600000 then lit "Sat, Jun 15, 3:00 PM"
  else if t =? 1718445600000 then lit "Sat, Jun 15, 10:00 AM"
  else if t =? 1718481600000 then lit "Sat, Jun 15, 8:00 PM"
  else if t =? 1718416800000 then lit "Sat, Jun 15, 2:00 AM"
  else if t =? 1718398800000 then lit "Fri, Jun 14, 9:00 PM"
  else [].

Definition host (remote : Request -> RemoteOutcome) : Platform :=
  {| generateContent := remote;
     JSON_parse := parse;
     Intl_formatToParts := formatToParts;
     Date_toLocaleString := localeString;
     Date_parse := date_parse;
     Date_getDate := utc_date;
     Intl_format := display;
     Number_toString := fun _ => lit "NaN" |}.

Definition reply_with (b : list (JSString * JSValue)) : RemoteOutcome :=
  Replied (Some (show_object b)).

(** A service that knows London and New York. *)
Definition remote_up (r : Request) : RemoteOutcome :=
  if eqb (contents r) (prompt (lit "London")) then reply_with london_body
  else if eqb (contents r) (prompt (lit "New York")) then reply_with newyork_body
  else reply_with unknown_body.

(** A service that cannot be reached. *)
Definition remote_down (r : Request) : RemoteOutcome := Rejected.

(** A service that answers with text that is not JSON. *)
Definition remote_garbled (r : Request) : RemoteOutcome :=
  Replied (Some (lit "<html>502 Bad Gateway</html>")).

(** A service that ignores the schema. *)
Definition remote_sloppy (r : Request) : RemoteOutcome := reply_with valid_only_body.

(** A service that answers with a string where the schema has a boolean. *)
Definition remote_stringly (r : Request) : RemoteOutcome := reply_with stringly_body.

(** A service whose response carries no text. *)
Definition remote_silent (r : Request) : RemoteOutcome := Replied None.

Definition location (b : list (JSString * JSValue)) : LocationInfo :=
  let field name := match lookup (lit name) b with Some v => v | None => JSUndefined end in
  {| ianaTimezone := field "ianaTimezone"%string; fullName := field "fullName"%string;
     city := field "city"%string; country := field "country"%string;
     countryCode := field "countryCode"%string; funFact := field "funFact"%string |}.

Definition london : LocationInfo := location london_body.
Definition newyork : LocationInfo := location newyork_body.
Definition elbonia : LocationInfo := location elbonia_body.

(** The component as it is created, before the first resolution. *)
Definition fresh : AppComponent :=
  {| sourceQuery := str ""; targetQuery := str "";
     sourceLocation := None; targetLocation := None;
     isLoadingSource := false; isLoadingTarget := false;
     selectedDate := lit "2024-06-15T14:00"; error := None |}.

(** London to New York, with a time the user typed. *)
Definition london_newyork : AppComponent :=
  {| sourceQuery := str "London, United Kingdom";
     targetQuery := str "New York, United States";
     sourceLocation := Some london; targetLocation := Some newyork;
     isLoadingSource := false; isLoadingTarget := false;
     selectedDate := lit "2024-06-15T02:00"; error := None |}.

(** Only the source is resolved. *)
Definition london_only : AppComponent :=
  {| sourceQuery := str "London, United Kingdom"; targetQuery := str "Atlantis";
     sourceLocation := Some london; targetLocation := None;
     isLoadingSource := false; isLoadingTarget := false;
     selectedDate := lit "2024-06-15T02:00";
     error := Some (notFound (lit "Atlantis")) |}.

(** The target has a time zone name the host does not know. *)
Definition london_elbonia : AppComponent :=
  {| sourceQuery := str "London, United Kingdom"; targetQuery := str "Elbonia";
     sourceLocation := Some london; targetLocation := Some elbonia;
     isLoadingSource := false; isLoadingTarget := false;
     selectedDate := lit "2024-06-15T02:00"; error := None |}.

End Sample.

(** ** The life of the component *)

Module Lifecycle.




End Lifecycle.

Import Lifecycle.

(** More states of the sample host. *)
Module Scenes.

(** Source and target are the same place. *)
Definition london_london : AppComponent :=
  {| sourceQuery := Sample.str "London, United Kingdom";
     targetQuery := Sample.str "London, United Kingdom";
     sourceLocation := Some Sample.london; targetLocation := Some Sample.london;
     isLoadingSource := false; isLoadingTarget := false;
     selectedDate := lit "2024-06-15T02:00"; error := None |}.

(** London to New York with 15:00 selected, the time in London at the
    instant of the sample host. *)
Definition london_newyork_now : AppComponent :=
  set_selectedDate (lit "2024-06-15T15:00") Sample.london_newyork.

(** A host that also reads a date one hour before the last time value
    a [Date] can hold, +275760-09-13T00:00:00Z. *)
Definition far_parse (str : JSString) : option Z :=
  if eqb str (lit "+275760-09-12T23:00") then Some 8639999996400000
  else Sample.date_parse str.

Definition far_host : Platform :=
  {| generateContent := Sample.remote_up;
     JSON_parse := Sample.parse;
     Intl_formatToParts := Sample.formatToParts;
     Date_toLocaleString := Sample.localeString;
     Date_parse := far_parse;
     Date_getDate := Sample.utc_date;
     Intl_format := Sample.display;
     Number_toString := fun _ => lit "NaN" |}.

(** New York to London with that date selected. *)
Definition newyork_london_far : AppComponent :=
  {| sourceQuery := Sample.str "New York, United States";
     targetQuery := Sample.str "London, United Kingdom";
     sourceLocation := Some Sample.newyork; targetLocation := Some Sample.london;
     isLoadingSource := false; isLoadingTarget := false;
     selectedDate := lit "+275760-09-12T23:00"; error := None |}.

End Scenes.

(** ** Vocabulary of the statements *)

(** The remote call fails at the transport level for [query]: the call
    is rejected, or the text of the response is not JSON, or it is the
    JSON [null]. *)
Inductive RemoteFailure (P : Platform) (query : JSString) : Prop :=
| call_rejected :
    generateContent P (request query) = Rejected -> RemoteFailure P query
| text_unparseable text :
    generateContent P (request query) = Replied text ->
    JSON_parse P (text_or_default text) = None -> RemoteFailure P query
| body_null text :
    generateContent P (request query) = Replied text ->
    JSON_parse P (text_or_default text) = Some JSNull -> RemoteFailure P query.

(** The service answers [query] with a body whose [valid] is [false]. *)
Definition ReportsInvalid (P : Platform) (query : JSString) : Prop :=
  exists text props,
    generateContent P (request query) = Replied text /\
    JSON_parse P (text_or_default text) = Some (JSObject props) /\
    lookup (lit "valid") props = Some (JSBool false).

(** A body the service code goes on with: an object whose own [valid]
    is truthy. *)
Definition usable (data : JSValue) : bool :=
  match data with
  | JSObject props =>
      match lookup (lit "valid") props with
      | Some v => ToBoolean v
      | None => false
      end
  | _ => false
  end.

(** The six fields as they stand in a body. *)
Definition copied (data : JSValue) : LocationInfo :=
  let field name :=
    match data with
    | JSObject props =>
        match lookup (lit name) props with Some v => v | None => JSUndefined end
    | _ => JSUndefined
    end in
  {| ianaTimezone := field "ianaTimezone"%string; fullName := field "fullName"%string;
     city := field "city"%string; country := field "country"%string;
     countryCode := field "countryCode"%string; funFact := field "funFact"%string |}.

(** The service answers [query] with text that parses to [data], a body
    the service code goes on with. *)
Definition Accepted (P : Platform) (query : JSString) (data : JSValue) : Prop :=
  exists text,
    generateContent P (request query) = Replied text /\
    JSON_parse P (text_or_default text) = Some data /\
    usable data = true.

(** The selected date is one the converter cannot use: it is empty, has
    no time part after a ['T'], or the host does not read it as a date. *)
Definition malformed (P : Platform) (dateStr : JSString) : Prop :=
  dateStr = [] \/ nth_error (split 84%N dateStr) 1 = None \/ Date_of_string P dateStr = None.

(** The text of [n] tenths, with a point before the last digit, behind
    a minus sign when [d] is negative. *)
Definition signed_tenths (d n : Z) : JSString :=
  (if d <? 0 then lit "-" else []) ++ decimal (n / 10) ++ lit "." ++ decimal (n mod 10).

(** What a successful conversion goes through: both locations are
    present, the selected date has a time part, and the host gives the
    wall-clock time values of the current instant in the source and in
    the target zone, the time value of the selected date, and a valid
    one for the target. *)
Record Reading := {
  sourceWall : Z;
  targetWall : Z;
  inputWallTime : Z;
  targetWallTime : Z
}.

Definition reads (P : Platform) (now : Z) (c : AppComponent) (k : Reading) : Prop :=
  exists src tgt srcStr tgtStr,
    sourceLocation c = Some src /\ targetLocation c = Some tgt /\
    selectedDate c <> [] /\ nth_error (split 84%N (selectedDate c)) 1 <> None /\
    Date_toLocaleString P (ianaTimezone src) now = Some srcStr /\
    Date_toLocaleString P (ianaTimezone tgt) now = Some tgtStr /\
    Date_of_string P srcStr = Some (sourceWall k) /\
    Date_of_string P tgtStr = Some (targetWall k) /\
    Date_of_string P (selectedDate c) = Some (inputWallTime k) /\
    time_plus (Some (inputWallTime k)) (Number_of_Z (targetWall k - sourceWall k))
    = Some (targetWallTime k).

(** The conversion has no result to give for the state. *)
Inductive Unconvertible (P : Platform) (now : Z) (c : AppComponent) : Prop :=
| no_source : sourceLocation c = None -> Unconvertible P now c
| no_target : targetLocation c = None -> Unconvertible P now c
| bad_date : malformed P (selectedDate c) -> Unconvertible P now c
| try_throws src tgt e :
    sourceLocation c = Some src -> targetLocation c = Some tgt ->
    convertedResult_try P now src tgt (selectedDate c) = Threw e ->
    Unconvertible P now c.

(** The awaited promise was fulfilled with a location. *)
Definition succeeded (r : Completion (option LocationInfo)) : bool :=
  match r with
  | Returned (Some _) => true
  | _ => false
  end.

(** A record as the interface [LocationInfo] declares it: six strings. *)
Definition well_typed (l : LocationInfo) : bool :=
  match ianaTimezone l, fullName l, city l, country l, countryCode l, funFact l with
  | JSStr _, JSStr _, JSStr _, JSStr _, JSStr _, JSStr _ => true
  | _, _, _, _, _, _ => false
  end.

(** The selected date as [updateTimeForSource] leaves it for a zone. *)
Definition seeded (P : Platform) (now : Z) (timeZone : JSValue) (before : JSString)
  : JSString :=
  match Intl_formatToParts P timeZone now with
  | Some parts => isoLocal parts
  | None => before
  end.

(** * Properties *)

(** ** The model at work on the sample host *)

Section Examples.

Let up := Sample.host Sample.remote_up.

Example trim_spaces : trim (lit "  New York ") = lit "New York".
Proof. reflexivity. Qed.

(** U+00A0 and U+FEFF are white space, and the length counts code units. *)
Example trim_unicode : trim [160; 65279; 233; 10]%N = [233]%N.
Proof. reflexivity. Qed.

Example split_date :
  split 84%N (lit "2024-06-15T14:00") = [lit "2024-06-15"; lit "14:00"].
Proof. reflexivity. Qed.

Example split_no_time : nth_error (split 84%N (lit "2024-06-15")) 1 = None.
Proof. reflexivity. Qed.

Example resolve_london :
  resolveLocation up (lit "London") = (Returned (Some Sample.london), [request (lit "London")]).
Proof. reflexivity. Qed.

Example resolve_unknown :
  resolveLocation up (lit "Atlantis") = (Returned None, [request (lit "Atlantis")]).
Proof. reflexivity. Qed.

(** Resolving the source seeds the date with the current time there. *)
Example resolveSource_london :
  let c := fst (resolveSource up Sample.now (lit "London") Sample.fresh) in
  sourceLocation c = Some Sample.london
  /\ sourceQuery c = Sample.str "London, United Kingdom"
  /\ selectedDate c = lit "2024-06-15T15:00"
  /\ isLoadingSource c = false /\ error c = None.
Proof. repeat split. Qed.

(** London to New York at 14:00 on 2024-06-15: five hours back, same day. *)
Example convert_london_newyork :
  convertedResult up Sample.now
    (set_selectedDate (lit "2024-06-15T14:00") Sample.london_newyork)
  = Some {| sourceTimeDisplay := lit "Sat, Jun 15, 2:00 PM";
            targetTimeDisplay := lit "Sat, Jun 15, 9:00 AM";
            diffHours := lit "-5.0";
            isNextDay := false |}.
Proof. reflexivity. Qed.

(** At 02:00 the target falls on the day before, and [isNextDay] is set. *)
Example convert_previous_day :
  convertedResult up Sample.now Sample.london_newyork
  = Some {| sourceTimeDisplay := lit "Sat, Jun 15, 2:00 AM";
            targetTimeDisplay := lit "Fri, Jun 14, 9:00 PM";
            diffHours := lit "-5.0";
            isNextDay := true |}.
Proof. reflexivity. Qed.

(** [toFixed(1)] on binary64 quotients: 5.75 is a tie and goes up, 0.15
    is a Number just below the tie and goes down. *)
Example toFixed1_quarter :
  toFixed1 up (Number_div (Number_of_Z 20700000) (Number_of_Z msPerHour)) = lit "5.8".
Proof. reflexivity. Qed.

Example toFixed1_nine_minutes :
  toFixed1 up (Number_div (Number_of_Z 540000) (Number_of_Z msPerHour)) = lit "0.1".
Proof. reflexivity. Qed.

Example toFixed1_minus_zero :
  toFixed1 up (Number_div (Number_of_Z (-1000)) (Number_of_Z msPerHour)) = lit "-0.0".
Proof. reflexivity. Qed.

(** The difference of two time values as [time_diff] has it is the
    binary64 subtraction of the two Numbers. *)
Example time_diff_is_subtraction :
  SFsub prec emax (Number_of_Z 1718445600000) (Number_of_Z 1718463600000)
  = time_diff (Some 1718445600000) (Some 1718463600000)
  /\ SFsub prec emax (Number_of_Z JSDate.maxTime) (Number_of_Z (- JSDate.maxTime + 1))
     = time_diff (Some JSDate.maxTime) (Some (- JSDate.maxTime + 1))
  /\ SFsub prec emax (Number_of_Z 0) (Number_of_Z 0) = time_diff (Some 0) (Some 0).
Proof. repeat split. Qed.

(** The sum of a time value and an offset as [time_plus] has it is the
    binary64 addition of the two Numbers. *)
Example time_plus_is_addition :
  Z_of_Number (SFadd prec emax (Number_of_Z 1718416800000) (Number_of_Z (-18000000)))
  = time_plus (Some 1718416800000) (Number_of_Z (-18000000)).
Proof. reflexivity. Qed.

End Examples.

Section Strings.

Lemma eqb_eq (s t : JSString) : eqb s t = true <-> s = t.
Proof.
  revert t; induction s as [|a s IH]; intros [|b t]; simpl;
    try (split; [discriminate | congruence]); try tauto.
  rewrite andb_true_iff, N.eqb_eq, IH. split.
  - intros [-> ->]. reflexivity.
  - intros H. inversion H. auto.
Qed.

Lemma eqb_refl (s : JSString) : eqb s s = true.
Proof. apply eqb_eq. reflexivity. Qed.

Lemma eqb_nil (s : JSString) : eqb s [] = true <-> s = [].
Proof. apply eqb_eq. Qed.

Lemma trim_nil : trim [] = [].
Proof. reflexivity. Qed.

End Strings.

(** ** The location resolver *)

Section Resolver.

Variable P : Platform.

Lemma resolveLocation_guard (query : JSString) :
  (List.length (trim query) < 2)%nat ->
  eqb query [] || Nat.ltb (List.length (trim query)) 2 = true.
Proof.
  intros H. apply orb_true_iff. right. apply Nat.ltb_lt. exact H.
Qed.

Lemma resolveLocation_long (query : JSString) :
  (2 <= List.length (trim query))%nat ->
  resolveLocation P query
  = (Returned (try_catch (resolveLocation_try P query) None), [request query]).
Proof.
  intros H. unfold resolveLocation.
  assert (Hq : eqb query [] = false).
  { destruct query; [simpl in H; lia | reflexivity]. }
  rewrite Hq. apply Nat.ltb_ge in H. rewrite H. reflexivity.
Qed.

(** The promise of [resolveLocation] never rejects. *)
Lemma resolveLocation_returns (query : JSString) :
  exists r, fst (resolveLocation P query) = Returned r.
Proof.
  unfold resolveLocation.
  destruct (eqb query [] || Nat.ltb (List.length (trim query)) 2); eexists; reflexivity.
Qed.

Lemma try_failure (query : JSString) :
  RemoteFailure P query -> try_catch (resolveLocation_try P query) None = None.
Proof.
  unfold resolveLocation_try. intros [H | text H Hp | text H Hp]; rewrite H; simpl;
    try rewrite Hp; reflexivity.
Qed.

Lemma try_invalid (query : JSString) :
  ReportsInvalid P query -> try_catch (resolveLocation_try P query) None = None.
Proof.
  unfold resolveLocation_try. intros (text & props & H & Hp & Hv).
  rewrite H, Hp. simpl. rewrite Hv. reflexivity.
Qed.

(** What the [try] block makes of a parsed body. *)
Lemma try_parsed (query : JSString) text data :
  generateContent P (request query) = Replied text ->
  JSON_parse P (text_or_default text) = Some data ->
  try_catch (resolveLocation_try P query) None
  = if usable data then Some (copied data) else None.
Proof.
  unfold resolveLocation_try. intros -> ->.
  destruct data as [ | | b | x | s | items | props]; try reflexivity.
  unfold usable, Get. cbn [bind].
  destruct (lookup (lit "valid") props) as [v|]; [|reflexivity].
  destruct (ToBoolean v); reflexivity.
Qed.

End Resolver.

(** C9. A query whose trimmed length is below 2, the empty string
    included, makes [resolveLocation] return [null] at once: no request
    is sent to the remote service. *)
Theorem resolveLocation_short_query (P : Platform) (query : JSString) :
  (List.length (trim query) < 2)%nat ->
  resolveLocation P query = (Returned None, []).
Proof.
  intros H. unfold resolveLocation.
  rewrite (resolveLocation_guard query H). reflexivity.
Qed.

Lemma resolveLocation_short_query_witness :
  (List.length (trim (lit " a ")) < 2)%nat /\
  resolveLocation (Sample.host Sample.remote_up) (lit " a ") = (Returned None, []).
Proof.
  split.
  - simpl. lia.
  - apply resolveLocation_short_query. simpl. lia.
Defined.

(** C3, as the code has it. For a query of trimmed length at least 2,
    [resolveLocation] sends its single request and its promise is
    fulfilled, never rejected: no exception reaches the caller. The
    result is [null] when the service reports [valid = false] and when
    the call fails (it rejects, or its text is not JSON, or the body is
    [null]); more precisely it is [null] exactly when the service gives
    no body that is an object with a truthy [valid], which takes in a
    response without text, [{}], an array and a body without [valid].
    A malformed body whose [valid] is truthy is not a failure for the
    code: the result is the record of its six fields as they stand. *)
Theorem resolveLocation_null_unless_usable (P : Platform) (query : JSString) :
  (2 <= List.length (trim query))%nat ->
  (exists r, resolveLocation P query = (Returned r, [request query]))
  /\ (ReportsInvalid P query \/ RemoteFailure P query ->
      resolveLocation P query = (Returned None, [request query]))
  /\ (resolveLocation P query = (Returned None, [request query]) <->
      forall data, ~ Accepted P query data)
  /\ (forall data, Accepted P query data ->
      resolveLocation P query = (Returned (Some (copied data)), [request query])).
Proof.
  intros Hlen. rewrite (resolveLocation_long P query Hlen).
  split; [eexists; reflexivity|]. split; [|split].
  - intros [H | H].
    + rewrite (try_invalid P query H). reflexivity.
    + rewrite (try_failure P query H). reflexivity.
  - destruct (generateContent P (request query)) as [|text] eqn:Hcall.
    + rewrite (try_failure P query (call_rejected P query Hcall)).
      split; [|reflexivity]. intros _ data (text & H & _). congruence.
    + destruct (JSON_parse P (text_or_default text)) as [data|] eqn:Hp.
      * rewrite (try_parsed P query text data Hcall Hp).
        destruct (usable data) eqn:Hu; split.
        -- discriminate.
        -- intros H. destruct (H data). exists text. auto.
        -- intros _ d (t & Ht & Hd & Hud). congruence.
        -- reflexivity.
      * rewrite (try_failure P query (text_unparseable P query text Hcall Hp)).
        split; [|reflexivity]. intros _ data (t & Ht & Hd & _). congruence.
  - intros data (text & Hcall & Hp & Hu).
    rewrite (try_parsed P query text data Hcall Hp), Hu. reflexivity.
Qed.

Lemma resolveLocation_null_unless_usable_witness :
  resolveLocation (Sample.host Sample.remote_down) (lit "London")
  = (Returned None, [request (lit "London")])
  /\ resolveLocation (Sample.host Sample.remote_up) (lit "Atlantis")
     = (Returned None, [request (lit "Atlantis")])
  /\ resolveLocation (Sample.host Sample.remote_garbled) (lit "London")
     = (Returned None, [request (lit "London")])
  /\ resolveLocation (Sample.host Sample.remote_silent) (lit "London")
     = (Returned None, [request (lit "London")])
  /\ resolveLocation (Sample.host Sample.remote_stringly) (lit "London")
     = (Returned (Some Sample.london), [request (lit "London")]).
Proof.
  assert (Hl : (2 <= List.length (trim (lit "London")))%nat) by (simpl; lia).
  assert (Ha : (2 <= List.length (trim (lit "Atlantis")))%nat) by (simpl; lia).
  split; [|split; [|split; [|split]]].
  - destruct (resolveLocation_null_unless_usable (Sample.host Sample.remote_down) _ Hl)
      as (_ & Hfail & _).
    apply Hfail. right. apply call_rejected. reflexivity.
  - destruct (resolveLocation_null_unless_usable (Sample.host Sample.remote_up) _ Ha)
      as (_ & Hfail & _).
    apply Hfail. left.
    exists (Some (Sample.show_object Sample.unknown_body)), Sample.unknown_body.
    repeat split; reflexivity.
  - destruct (resolveLocation_null_unless_usable (Sample.host Sample.remote_garbled) _ Hl)
      as (_ & Hfail & _).
    apply Hfail. right.
    apply (text_unparseable _ _ (Some (lit "<html>502 Bad Gateway</html>"))); reflexivity.
  - destruct (resolveLocation_null_unless_usable (Sample.host Sample.remote_silent) _ Hl)
      as (_ & _ & Hnull & _).
    apply Hnull. intros data (text & Hcall & Hp & Hu).
    injection Hcall as <-. vm_compute in Hp. injection Hp as <-. discriminate.
  - destruct (resolveLocation_null_unless_usable (Sample.host Sample.remote_stringly) _ Hl)
      as (_ & _ & _ & Hrec).
    apply (Hrec (JSObject Sample.stringly_body)).
    exists (Some (Sample.show_object Sample.stringly_body)). repeat split; reflexivity.
Defined.

(** C3 as stated fails for a malformed response: a body with nothing
    but [valid], and a body whose [valid] is a string, do not conform to
    the schema, yet for a query of trimmed length 6 [resolveLocation]
    returns a record for each and not [null]. *)
Lemma resolveLocation_malformed_counterexample :
  (2 <= List.length (trim (lit "London")))%nat
  /\ generateContent (Sample.host Sample.remote_sloppy) (request (lit "London"))
     = Replied (Some (Sample.show_object Sample.valid_only_body))
  /\ JSON_parse (Sample.host Sample.remote_sloppy) (Sample.show_object Sample.valid_only_body)
     = Some (JSObject Sample.valid_only_body)
  /\ conforms (JSObject Sample.valid_only_body) = false
  /\ resolveLocation (Sample.host Sample.remote_sloppy) (lit "London")
     = (Returned (Some {| ianaTimezone := JSUndefined; fullName := JSUndefined;
                          city := JSUndefined; country := JSUndefined;
                          countryCode := JSUndefined; funFact := JSUndefined |}),
        [request (lit "London")])
  /\ generateContent (Sample.host Sample.remote_stringly) (request (lit "London"))
     = Replied (Some (Sample.show_object Sample.stringly_body))
  /\ JSON_parse (Sample.host Sample.remote_stringly) (Sample.show_object Sample.stringly_body)
     = Some (JSObject Sample.stringly_body)
  /\ lookup (lit "valid") Sample.stringly_body = Some (JSStr (lit "yes"))
  /\ conforms (JSObject Sample.stringly_body) = false
  /\ resolveLocation (Sample.host Sample.remote_stringly) (lit "London")
     = (Returned (Some Sample.london), [request (lit "London")])
  /\ fst (resolveLocation (Sample.host Sample.remote_sloppy) (lit "London")) <> Returned None
  /\ fst (resolveLocation (Sample.host Sample.remote_stringly) (lit "London")) <> Returned None.
Proof.
  repeat split; try reflexivity; try discriminate. simpl. lia.
Qed.

(** C2, as the code has it. [resolveLocation] does not compare the body
    with the schema. For a query of trimmed length at least 2 that the
    service answers, it returns [null] exactly when the text is not
    JSON or the parsed body is not an object with a truthy [valid];
    every other body, conforming or not, gives a record of the six
    fields as they stand in the body, [undefined] where one is missing. *)
Theorem resolveLocation_checks_only_valid (P : Platform) (query : JSString) text :
  (2 <= List.length (trim query))%nat ->
  generateContent P (request query) = Replied text ->
  (fst (resolveLocation P query) = Returned None <->
   forall data, JSON_parse P (text_or_default text) = Some data -> usable data = false)
  /\ (forall data,
        JSON_parse P (text_or_default text) = Some data -> usable data = true ->
        fst (resolveLocation P query) = Returned (Some (copied data))).
Proof.
  intros Hlen Hcall. rewrite (resolveLocation_long P query Hlen). cbn [fst].
  destruct (JSON_parse P (text_or_default text)) as [data|] eqn:Hp.
  - rewrite (try_parsed P query text data Hcall Hp). split.
    + split.
      * intros H d Hd. injection Hd as <-. destruct (usable data); [discriminate | reflexivity].
      * intros H. rewrite (H data eq_refl). reflexivity.
    + intros d Hd Hu. injection Hd as <-. rewrite Hu. reflexivity.
  - rewrite (try_failure P query (text_unparseable P query text Hcall Hp)). split.
    + split; [discriminate | reflexivity].
    + discriminate.
Qed.

Lemma resolveLocation_checks_only_valid_witness :
  (fst (resolveLocation (Sample.host Sample.remote_sloppy) (lit "London")) = Returned None <->
   forall data,
     JSON_parse (Sample.host Sample.remote_sloppy)
       (text_or_default (Some (Sample.show_object Sample.valid_only_body))) = Some data ->
     usable data = false)
  /\ (forall data,
        JSON_parse (Sample.host Sample.remote_sloppy)
          (text_or_default (Some (Sample.show_object Sample.valid_only_body))) = Some data ->
        usable data = true ->
        fst (resolveLocation (Sample.host Sample.remote_sloppy) (lit "London"))
        = Returned (Some (copied data))).
Proof.
  apply (resolveLocation_checks_only_valid (Sample.host Sample.remote_sloppy) (lit "London")).
  - simpl. lia.
  - reflexivity.
Defined.

(** C2 as stated fails: a service that answers [{"valid":true}] and
    nothing else sends a body that does not conform to the schema, and
    [resolveLocation] returns a record of six [undefined] fields. *)
Lemma resolveLocation_schema_counterexample :
  generateContent (Sample.host Sample.remote_sloppy) (request (lit "London"))
  = Replied (Some (Sample.show_object Sample.valid_only_body))
  /\ JSON_parse (Sample.host Sample.remote_sloppy) (Sample.show_object Sample.valid_only_body)
     = Some (JSObject Sample.valid_only_body)
  /\ conforms (JSObject Sample.valid_only_body) = false
  /\ fst (resolveLocation (Sample.host Sample.remote_sloppy) (lit "London"))
     = Returned (Some {| ianaTimezone := JSUndefined; fullName := JSUndefined;
                         city := JSUndefined; country := JSUndefined;
                         countryCode := JSUndefined; funFact := JSUndefined |})
  /\ fst (resolveLocation (Sample.host Sample.remote_sloppy) (lit "London")) <> Returned None.
Proof.
  repeat split; try reflexivity. discriminate.
Qed.

(** ** Resolution in the component *)

Section Slots.

Lemma message_inj (a b : JSString) : Some a = Some b -> a = b.
Proof. congruence. Qed.

Lemma notFound_not_source (query : JSString) :
  notFound query <> lit "Failed to resolve source location.".
Proof. discriminate. Qed.

Lemma notFound_not_target (query : JSString) :
  notFound query <> lit "Failed to resolve target location.".
Proof. discriminate. Qed.

Lemma resume_source_null (P : Platform) (now : Z) (query : JSString) (c : AppComponent) :
  error (resolveSource_resume P now query (Returned None) c) = Some (notFound query).
Proof. reflexivity. Qed.

Lemma resume_target_null (query : JSString) (c : AppComponent) :
  error (resolveTarget_resume query (Returned None) c) = Some (notFound query).
Proof. reflexivity. Qed.

Lemma resolveLocation_failure (P : Platform) (query : JSString) :
  RemoteFailure P query -> fst (resolveLocation P query) = Returned None.
Proof.
  intros H. unfold resolveLocation.
  destruct (eqb query [] || Nat.ltb (List.length (trim query)) 2); [reflexivity|].
  cbn [fst]. rewrite (try_failure P query H). reflexivity.
Qed.

End Slots.

(** C1, as the code has it. A transport-level failure of the remote
    call never reaches the component as an exception: [resolveLocation]
    absorbs it and returns [null]. Whatever the state the slot is
    resumed on, the message it then shows is the not-found message
    ['Could not find location: <query>'] and not the generic message of
    the slot, which is only set when the awaited call itself throws. *)
Theorem transport_failure_shows_not_found (P : Platform) (now : Z)
    (query : JSString) (c : AppComponent) :
  RemoteFailure P query ->
  let r := fst (resolveLocation P query) in
  (error (resolveSource_resume P now query r c) = Some (notFound query)
   /\ error (resolveSource_resume P now query r c)
      <> Some (lit "Failed to resolve source location."))
  /\ (error (resolveTarget_resume query r c) = Some (notFound query)
      /\ error (resolveTarget_resume query r c)
         <> Some (lit "Failed to resolve target location."))
  /\ (forall e,
        error (resolveSource_resume P now query (Threw e) c)
        = Some (lit "Failed to resolve source location.")
        /\ error (resolveTarget_resume query (Threw e) c)
           = Some (lit "Failed to resolve target location.")).
Proof.
  intros H r. subst r. rewrite (resolveLocation_failure P query H).
  rewrite resume_source_null, resume_target_null.
  repeat split; try reflexivity; intros E; apply message_inj in E.
  - exact (notFound_not_source query E).
  - exact (notFound_not_target query E).
Qed.

Lemma transport_failure_shows_not_found_witness :
  error (resolveSource_resume (Sample.host Sample.remote_down) Sample.now (lit "London")
           (fst (resolveLocation (Sample.host Sample.remote_down) (lit "London")))
           Sample.fresh)
  = Some (lit "Could not find location: London").
Proof.
  apply (transport_failure_shows_not_found (Sample.host Sample.remote_down) Sample.now
           (lit "London") Sample.fresh).
  apply call_rejected. reflexivity.
Defined.

(** C1 as stated fails: with the service unreachable, resolving
    "London" in either slot of a fresh component ends with the
    not-found message, not with the generic message of the slot. *)
Lemma transport_failure_counterexample :
  RemoteFailure (Sample.host Sample.remote_down) (lit "London")
  /\ error (fst (resolveSource (Sample.host Sample.remote_down) Sample.now (lit "London")
                   Sample.fresh))
     = Some (lit "Could not find location: London")
  /\ error (fst (resolveSource (Sample.host Sample.remote_down) Sample.now (lit "London")
                   Sample.fresh))
     <> Some (lit "Failed to resolve source location.")
  /\ error (fst (resolveTarget (Sample.host Sample.remote_down) (lit "London") Sample.fresh))
     = Some (lit "Could not find location: London")
  /\ error (fst (resolveTarget (Sample.host Sample.remote_down) (lit "London") Sample.fresh))
     <> Some (lit "Failed to resolve target location.").
Proof.
  split; [apply call_rejected; reflexivity|].
  repeat split; try reflexivity; discriminate.
Qed.

(** C10. [resolveSource] and [resolveTarget] called with the empty
    string return before anything is set: no signal of the component
    changes, nothing is awaited and no request is sent. *)
Theorem resolve_empty_query_is_noop (P : Platform) (now : Z) (c : AppComponent) :
  resolveSource_start [] c = Finished c
  /\ resolveTarget_start [] c = Finished c
  /\ resolveSource P now [] c = (c, [])
  /\ resolveTarget P [] c = (c, []).
Proof. repeat split. Qed.

(** ** The time converter *)

Section Converter.

Variable P : Platform.
Variable now : Z.

Lemma time_diff_valid (a b : TimeValue) (d : Z) :
  Z_of_Number (time_diff a b) = Some d ->
  exists x y, a = Some x /\ b = Some y.
Proof.
  destruct a as [x|], b as [y|]; simpl; try discriminate.
  intros _. exists x, y. split; reflexivity.
Qed.

Lemma time_plus_valid (t : TimeValue) (x : Number) (v : Z) :
  time_plus t x = Some v -> exists i d, t = Some i /\ Z_of_Number x = Some d.
Proof.
  unfold time_plus. destruct t as [i|]; [|discriminate].
  destruct (Z_of_Number x) as [d|]; [|discriminate].
  intros _. exists i, d. split; reflexivity.
Qed.

(** A conversion that gives a result read every date it needed, and
    the result is built from those readings. *)
Lemma convertedResult_Some (c : AppComponent) (r : ConversionResult) :
  convertedResult P now c = Some r ->
  exists k, reads P now c k
    /\ sourceTimeDisplay r = Intl_format P (inputWallTime k)
    /\ targetTimeDisplay r = Intl_format P (targetWallTime k)
    /\ diffHours r
       = toFixed1 P (Number_div (Number_of_Z (targetWall k - sourceWall k))
                       (Number_of_Z msPerHour))
    /\ isNextDay r
       = negb (Date_getDate P (targetWallTime k) =? Date_getDate P (inputWallTime k)).
Proof.
  unfold convertedResult, reads.
  destruct (sourceLocation c) as [src|]; [|discriminate].
  destruct (targetLocation c) as [tgt|]; [|discriminate].
  destruct (eqb (selectedDate c) []) eqn:Hne; [discriminate|].
  unfold convertedResult_try, toLocaleString.
  destruct (nth_error (split 84%N (selectedDate c)) 1) as [timePart|] eqn:Htime;
    [|discriminate].
  cbn [bind].
  destruct (Date_toLocaleString P (ianaTimezone src) now) as [srcStr|] eqn:Hs;
    [|discriminate].
  cbn [bind].
  destruct (Date_toLocaleString P (ianaTimezone tgt) now) as [tgtStr|] eqn:Ht;
    [|discriminate].
  cbn [bind].
  destruct (Date_of_string P (selectedDate c)) as [input|] eqn:Hin; [|discriminate].
  cbn [formatDate bind].
  destruct (time_plus (Some input) _) as [target|] eqn:Htarget; [|discriminate].
  cbn [formatDate bind try_catch].
  intros H. injection H as <-.
  destruct (time_plus_valid _ _ _ Htarget) as (i & d & _ & Hd).
  destruct (time_diff_valid _ _ _ Hd) as (x & y & Hx & Hy).
  rewrite Hx, Hy in *. cbn [time_diff] in *.
  exists {| sourceWall := y; targetWall := x; inputWallTime := input;
            targetWallTime := target |}.
  cbn. split.
  - exists src, tgt, srcStr, tgtStr. repeat split; auto; try discriminate.
    intros E. apply eqb_nil in E. congruence.
  - repeat split; reflexivity.
Qed.

(** Conversely, when the host gives all the readings the conversion has
    a result. *)
Lemma convertedResult_reads (c : AppComponent) (k : Reading) :
  reads P now c k -> exists r, convertedResult P now c = Some r.
Proof.
  intros (src & tgt & srcStr & tgtStr & Hs & Ht & Hne & Htime & Hss & Hts & Hsw & Htw
          & Hin & Hout).
  unfold convertedResult. rewrite Hs, Ht.
  destruct (eqb (selectedDate c) []) eqn:E; [apply eqb_nil in E; contradiction|].
  unfold convertedResult_try, toLocaleString.
  destruct (nth_error (split 84%N (selectedDate c)) 1); [|contradiction].
  rewrite Hss, Hts. cbn [bind]. rewrite Hsw, Htw, Hin. cbn [time_diff formatDate bind].
  rewrite Hout. cbn [formatDate bind try_catch]. eexists. reflexivity.
Qed.

Lemma convertedResult_try_bad_date (src tgt : LocationInfo) (dateStr : JSString) :
  malformed P dateStr -> dateStr <> [] ->
  exists e, convertedResult_try P now src tgt dateStr = Threw e.
Proof.
  intros [H | [H | H]] Hne; [contradiction | |]; unfold convertedResult_try.
  - rewrite H. eexists. reflexivity.
  - destruct (nth_error (split 84%N dateStr) 1); [|eexists; reflexivity].
    cbn [bind]. destruct (toLocaleString P (ianaTimezone src) now); [|eexists; reflexivity].
    cbn [bind]. destruct (toLocaleString P (ianaTimezone tgt) now); [|eexists; reflexivity].
    cbn [bind]. rewrite H. eexists. reflexivity.
Qed.

End Converter.

(** C5. [convertedResult] is [null] when the source location is
    absent, when the target location is absent, when the date string is
    empty or malformed (no time part after a ['T'], or not a date for
    the host), and whenever a statement of the [try] block throws:
    there is no partial result. *)
Theorem convertedResult_fails_closed (P : Platform) (now : Z) (c : AppComponent) :
  Unconvertible P now c -> convertedResult P now c = None.
Proof.
  intros [H | H | H | src tgt e Hs Ht H]; unfold convertedResult.
  - rewrite H. reflexivity.
  - rewrite H. destruct (sourceLocation c); reflexivity.
  - destruct (sourceLocation c) as [src|]; [|reflexivity].
    destruct (targetLocation c) as [tgt|]; [|reflexivity].
    destruct (eqb (selectedDate c) []) eqn:He; [reflexivity|].
    assert (Hne : selectedDate c <> []).
    { intros E. apply eqb_nil in E. congruence. }
    destruct (convertedResult_try_bad_date P now src tgt _ H Hne) as [e ->].
    reflexivity.
  - rewrite Hs, Ht, H. destruct (eqb (selectedDate c) []); reflexivity.
Qed.

Lemma convertedResult_fails_closed_witness :
  convertedResult (Sample.host Sample.remote_up) Sample.now Sample.london_only = None
  /\ convertedResult (Sample.host Sample.remote_up) Sample.now
       (set_selectedDate (lit "tomorrow") Sample.london_newyork) = None
  /\ convertedResult (Sample.host Sample.remote_up) Sample.now Sample.london_elbonia = None.
Proof.
  split; [|split]; apply convertedResult_fails_closed.
  - apply no_target. reflexivity.
  - apply bad_date. right. left. reflexivity.
  - apply (try_throws _ _ _ Sample.london Sample.elbonia RangeError); reflexivity.
Defined.

(** C6. In every result of a conversion [isNextDay] is [true] exactly
    when the day of the month of the computed target wall-clock value
    differs from the day of the month of the input wall-clock value. *)
Theorem isNextDay_iff_day_differs (P : Platform) (now : Z) (c : AppComponent)
    (r : ConversionResult) :
  convertedResult P now c = Some r ->
  exists k, reads P now c k
    /\ (isNextDay r = true <->
        Date_getDate P (targetWallTime k) <> Date_getDate P (inputWallTime k)).
Proof.
  intros H. destruct (convertedResult_Some P now c r H) as (k & Hk & _ & _ & _ & Hn).
  exists k. split; [exact Hk|]. rewrite Hn, negb_true_iff. apply Z.eqb_neq.
Qed.

Lemma isNextDay_iff_day_differs_witness :
  exists r,
    convertedResult (Sample.host Sample.remote_up) Sample.now Sample.london_newyork = Some r
    /\ isNextDay r = true
    /\ exists k, reads (Sample.host Sample.remote_up) Sample.now Sample.london_newyork k
         /\ (isNextDay r = true <->
             Date_getDate (Sample.host Sample.remote_up) (targetWallTime k)
             <> Date_getDate (Sample.host Sample.remote_up) (inputWallTime k)).
Proof.
  eexists. split; [reflexivity|]. split; [reflexivity|].
  apply isNextDay_iff_day_differs. reflexivity.
Defined.

(** ** Swapping *)

Section Swap.

Variable P : Platform.
Variable now : Z.

Lemma updateTimeForSource_frame (tz : JSValue) (c : AppComponent) :
  let c' := updateTimeForSource P now tz c in
  sourceQuery c' = sourceQuery c /\ targetQuery c' = targetQuery c
  /\ sourceLocation c' = sourceLocation c /\ targetLocation c' = targetLocation c
  /\ isLoadingSource c' = isLoadingSource c /\ isLoadingTarget c' = isLoadingTarget c
  /\ error c' = error c.
Proof.
  unfold updateTimeForSource. destruct (Intl_formatToParts P tz now); repeat split.
Qed.

Lemma updateTimeForSource_date (tz : JSValue) (c : AppComponent) :
  selectedDate (updateTimeForSource P now tz c)
  = match Intl_formatToParts P tz now with
    | Some parts => isoLocal parts
    | None => selectedDate c
    end.
Proof.
  unfold updateTimeForSource. destruct (Intl_formatToParts P tz now); reflexivity.
Qed.

(** The fields of the four signals [swapLocations] writes, and of the
    ones it leaves alone. *)
Lemma swapLocations_fields (c : AppComponent) :
  let c' := swapLocations P now c in
  sourceLocation c' = targetLocation c /\ targetLocation c' = sourceLocation c
  /\ sourceQuery c' = targetQuery c /\ targetQuery c' = sourceQuery c
  /\ isLoadingSource c' = isLoadingSource c /\ isLoadingTarget c' = isLoadingTarget c
  /\ error c' = error c.
Proof.
  unfold swapLocations. destruct (targetLocation c) as [t|] eqn:Ht.
  - match goal with
    | |- context [updateTimeForSource P now ?tz ?d] =>
        destruct (updateTimeForSource_frame tz d) as (-> & -> & -> & -> & -> & -> & ->)
    end.
    cbn. repeat split.
  - cbn. repeat split.
Qed.

Lemma swapLocations_date (c : AppComponent) :
  selectedDate (swapLocations P now c)
  = match targetLocation c with
    | Some t =>
        match Intl_formatToParts P (ianaTimezone t) now with
        | Some parts => isoLocal parts
        | None => selectedDate c
        end
    | None => selectedDate c
    end.
Proof.
  unfold swapLocations. destruct (targetLocation c) as [t|]; [|reflexivity].
  rewrite updateTimeForSource_date. reflexivity.
Qed.

End Swap.

(** C8, as the code has it. [swapLocations] exchanges the two
    locations and the two query texts in one step and touches neither
    the loading flags nor the error. When the old target location is
    present and the host can format the current instant in its zone,
    the selected date becomes that instant's wall-clock time in the new
    source zone, written year-month-day ['T'] hour:minute from the parts
    the formatter gives. When the old target location is absent, or the
    formatter throws, the selected date stays as it was. *)
Theorem swapLocations_exchanges (P : Platform) (now : Z) (c : AppComponent) :
  let c' := swapLocations P now c in
  (sourceLocation c' = targetLocation c /\ targetLocation c' = sourceLocation c
   /\ sourceQuery c' = targetQuery c /\ targetQuery c' = sourceQuery c
   /\ isLoadingSource c' = isLoadingSource c /\ isLoadingTarget c' = isLoadingTarget c
   /\ error c' = error c)
  /\ (forall t parts,
        targetLocation c = Some t ->
        Intl_formatToParts P (ianaTimezone t) now = Some parts ->
        selectedDate c'
        = getPart parts (lit "year") ++ lit "-" ++ getPart parts (lit "month") ++ lit "-"
          ++ getPart parts (lit "day") ++ lit "T" ++ getPart parts (lit "hour") ++ lit ":"
          ++ getPart parts (lit "minute"))
  /\ (forall t,
        targetLocation c = Some t ->
        Intl_formatToParts P (ianaTimezone t) now = None ->
        selectedDate c' = selectedDate c)
  /\ (targetLocation c = None -> selectedDate c' = selectedDate c).
Proof.
  intros c'. split; [exact (swapLocations_fields P now c)|].
  subst c'. rewrite swapLocations_date.
  split; [|split].
  - intros t parts -> ->. reflexivity.
  - intros t -> ->. reflexivity.
  - intros ->. reflexivity.
Qed.

Lemma swapLocations_exchanges_witness :
  sourceLocation (swapLocations (Sample.host Sample.remote_up) Sample.now Sample.london_newyork)
  = Some Sample.newyork
  /\ selectedDate (swapLocations (Sample.host Sample.remote_up) Sample.now
                     Sample.london_newyork)
     = lit "2024-06-15T10:00".
Proof.
  pose proof (swapLocations_exchanges (Sample.host Sample.remote_up) Sample.now
                Sample.london_newyork) as [[Hs _] [Hd _]].
  split.
  - exact Hs.
  - exact (Hd Sample.newyork (Sample.parts_of "06" "15" "2024" "10" "00") eq_refl eq_refl).
Defined.

(** C8 as stated fails. With only the source resolved, a swap leaves
    the new source empty and keeps the date the user typed; with a
    target whose time zone name the host does not know, the swap
    installs it as the new source and keeps the date as well. *)
Lemma swapLocations_counterexample :
  (targetLocation Sample.london_only = None
   /\ sourceLocation (swapLocations (Sample.host Sample.remote_up) Sample.now
                        Sample.london_only) = None
   /\ selectedDate (swapLocations (Sample.host Sample.remote_up) Sample.now
                      Sample.london_only)
      = selectedDate Sample.london_only)
  /\ (sourceLocation (swapLocations (Sample.host Sample.remote_up) Sample.now
                        Sample.london_elbonia) = Some Sample.elbonia
      /\ Intl_formatToParts (Sample.host Sample.remote_up) (ianaTimezone Sample.elbonia)
           Sample.now = None
      /\ selectedDate (swapLocations (Sample.host Sample.remote_up) Sample.now
                         Sample.london_elbonia)
         = lit "2024-06-15T02:00").
Proof. repeat split. Qed.

(** ** Binary64 arithmetic of the hour offset *)

Section Binary64.

Lemma digits2_size (p : positive) : digits2_pos p = Pos.size p.
Proof. induction p; simpl; congruence. Qed.

Lemma digits_bounds (p : positive) :
  2 ^ (Z.pos (digits2_pos p) - 1) <= Z.pos p < 2 ^ Z.pos (digits2_pos p).
Proof.
  rewrite digits2_size. split.
  - pose proof (Pos.size_le p) as H.
    apply Pos2Z.pos_le_pos in H. rewrite Pos2Z.inj_pow in H.
    replace (Z.pos (Pos.size p)) with (Z.succ (Z.pos (Pos.size p) - 1)) in H by lia.
    rewrite Z.pow_succ_r in H by lia. lia.
  - pose proof (Pos.size_gt p) as H.
    apply Pos2Z.pos_lt_pos in H. rewrite Pos2Z.inj_pow in H. exact H.
Qed.

Lemma digits_unique (p : positive) (n : Z) :
  2 ^ (n - 1) <= Z.pos p < 2 ^ n -> Z.pos (digits2_pos p) = n.
Proof.
  intros [Hlo Hhi]. destruct (digits_bounds p) as [Dlo Dhi].
  assert (0 < n).
  { destruct (Z.ltb_spec 0 n); [assumption|].
    rewrite (Z.pow_neg_r 2 (n - 1)) in Hlo by lia.
    destruct (Z.eqb_spec n 0) as [->|]; [simpl in Hhi; lia|].
    rewrite (Z.pow_neg_r 2 n) in Hhi by lia. lia. }
  assert (n - 1 < Z.pos (digits2_pos p)).
  { apply (Z.pow_lt_mono_r_iff 2); lia. }
  assert (Z.pos (digits2_pos p) - 1 < n).
  { apply (Z.pow_lt_mono_r_iff 2); lia. }
  lia.
Qed.

Lemma fexp_normal (e : Z) : -1021 <= e -> fexp prec emax e = e - 53.
Proof. intros H. unfold fexp, emin, prec, emax. lia. Qed.

(** A mantissa of 53 digits is not rounded. *)
Lemma round_aux_exact (s : bool) (m : positive) (e : Z) :
  Z.pos (digits2_pos m) = 53 -> -1074 <= e <= 971 ->
  binary_round_aux prec emax s (Z.pos m) e loc_Exact = S754_finite s m e.
Proof.
  intros Hd He. unfold binary_round_aux, shr_fexp. cbn [Zdigits2].
  rewrite Hd, fexp_normal by lia.
  replace (53 + e - 53 - e) with 0 by lia. cbn [shr shr_record_of_loc shr_m loc_of_shr_record round_nearest_even Zdigits2].
  rewrite Hd, fexp_normal by lia.
  replace (53 + e - 53 - e) with 0 by lia. cbn [shr shr_record_of_loc shr_m].
  unfold emax, prec. destruct (Z.leb_spec e (1024 - 53)); [reflexivity | lia].
Qed.

Lemma iter_xO (d p : positive) : Z.pos (Pos.iter xO p d) = Z.pos p * 2 ^ Z.pos d.
Proof.
  induction d as [|d IH] using Pos.peano_ind.
  - simpl. lia.
  - rewrite Pos.iter_succ, Pos2Z.inj_xO, IH, Pos2Z.inj_succ, Z.pow_succ_r by lia. lia.
Qed.

Lemma digits_le_53 (p : positive) : Z.pos p < 2 ^ 53 -> Z.pos (digits2_pos p) <= 53.
Proof.
  intros H. destruct (digits_bounds p) as [Dlo _].
  assert (Z.pos (digits2_pos p) - 1 < 53); [|lia].
  apply (Z.pow_lt_mono_r_iff 2); lia.
Qed.

(** The Number of a nonzero integer below 2^53 in absolute value: the
    integer itself, with its mantissa shifted up to 53 digits. *)
Lemma binary_round_small (s : bool) (p : positive) :
  Z.pos p < 2 ^ 53 ->
  exists m,
    binary_round prec emax s p 0 = S754_finite s m (Z.pos (digits2_pos p) - 53)
    /\ Z.pos (digits2_pos m) = 53
    /\ Z.pos m = Z.pos p * 2 ^ (53 - Z.pos (digits2_pos p)).
Proof.
  intros Hp. pose proof (digits_le_53 p Hp) as Hn.
  destruct (digits_bounds p) as [Dlo Dhi].
  unfold binary_round, shl_align. rewrite Z.add_0_r, fexp_normal by lia.
  rewrite Z.sub_0_r.
  destruct (Z.pos (digits2_pos p) - 53) as [|d|d] eqn:E; [|lia|].
  - exists p. replace (53 - Z.pos (digits2_pos p)) with 0 by lia.
    rewrite round_aux_exact by lia. repeat split; lia.
  - assert (Hm : Z.pos (Pos.iter xO p d) = Z.pos p * 2 ^ (53 - Z.pos (digits2_pos p))).
    { rewrite iter_xO. f_equal. f_equal. lia. }
    assert (Hd : Z.pos (digits2_pos (Pos.iter xO p d)) = 53).
    { apply digits_unique. rewrite Hm.
      replace (2 ^ (53 - 1)) with (2 ^ (Z.pos (digits2_pos p) - 1) * 2 ^ (53 - Z.pos (digits2_pos p))).
      2:{ rewrite <- Z.pow_add_r by lia. f_equal. lia. }
      replace (2 ^ 53) with (2 ^ Z.pos (digits2_pos p) * 2 ^ (53 - Z.pos (digits2_pos p))).
      2:{ rewrite <- Z.pow_add_r by lia. f_equal. lia. }
      assert (0 < 2 ^ (53 - Z.pos (digits2_pos p))) by (apply Z.pow_pos_nonneg; lia).
      split; [apply Z.mul_le_mono_nonneg_r | apply Z.mul_lt_mono_pos_r]; lia. }
    exists (Pos.iter xO p d). rewrite round_aux_exact by lia. repeat split; assumption.
Qed.

Lemma shr_fexp_keep (p : positive) (e : Z) (l : location) :
  Z.pos (digits2_pos p) = 53 -> -1074 <= e ->
  shr_fexp prec emax (Z.pos p) e l = (shr_record_of_loc (Z.pos p) l, e).
Proof.
  intros Hd He. unfold shr_fexp. cbn [Zdigits2]. rewrite Hd, fexp_normal by lia.
  replace (53 + e - 53 - e) with 0 by lia. reflexivity.
Qed.

Lemma shr_fexp_once (p : positive) (e : Z) (l : location) :
  Z.pos (digits2_pos p) = 54 -> -1074 <= e ->
  shr_fexp prec emax (Z.pos p) e l = (shr_1 (shr_record_of_loc (Z.pos p) l), e + 1).
Proof.
  intros Hd He. unfold shr_fexp. cbn [Zdigits2]. rewrite Hd, fexp_normal by lia.
  replace (54 + e - 53 - e) with 1 by lia. reflexivity.
Qed.

Lemma loc_of_record (m : Z) (l : location) :
  loc_of_shr_record (shr_record_of_loc m l) = l /\ shr_m (shr_record_of_loc m l) = m.
Proof. destruct l as [|[]]; split; reflexivity. Qed.

(** The last step of a rounded operation whose mantissa is normal. *)
Lemma round_aux_finish (s : bool) (M : Z) (e : Z) :
  2 ^ 52 <= M <= 2 ^ 53 -> -1074 <= e <= 900 ->
  let '(mrs, e') := shr_fexp prec emax M e loc_Exact in
  exists m j,
    (j = 0 \/ j = 1 /\ M = 2 ^ 53) /\ 2 ^ j * Z.pos m = M
    /\ Z.pos (digits2_pos m) = 53
    /\ match shr_m mrs with
       | 0 => S754_zero s
       | Z.pos m0 => if e' <=? emax - prec then S754_finite s m0 e' else S754_infinity s
       | Z.neg _ => S754_nan
       end = S754_finite s m (e + j).
Proof.
  intros HM He. destruct M as [|Mp|Mp]; try lia.
  destruct (Z.eq_dec (Z.pos Mp) (2 ^ 53)) as [E|NE].
  - injection E as ->. rewrite shr_fexp_once by (reflexivity || lia).
    cbn [shr_record_of_loc shr_1 shr_m].
    eexists _, 1. split; [right; split; reflexivity|]. split; [reflexivity|].
    split; [reflexivity|]. unfold emax, prec. destruct (Z.leb_spec (e + 1) (1024 - 53)); [reflexivity | lia].
  - assert (Hd : Z.pos (digits2_pos Mp) = 53) by (apply digits_unique; lia).
    rewrite shr_fexp_keep by lia. cbn [shr_record_of_loc shr_m].
    exists Mp, 0. split; [left; reflexivity|]. split; [lia|]. split; [exact Hd|].
    rewrite Z.add_0_r. unfold emax, prec.
    destruct (Z.leb_spec e (1024 - 53)); [reflexivity | lia].
Qed.

Lemma new_location_even_cases (den r : Z) :
  Z.even den = true -> 0 <= r < den ->
  (r = 0 /\ new_location den r = loc_Exact)
  \/ (0 < r /\ 2 * r < den /\ new_location den r = loc_Inexact Lt)
  \/ (2 * r = den /\ new_location den r = loc_Inexact Eq)
  \/ (den < 2 * r /\ new_location den r = loc_Inexact Gt).
Proof.
  intros Hev Hr. unfold new_location. rewrite Hev. unfold new_location_even.
  destruct (Z.eqb_spec r 0) as [->|Hne]; [left; split; reflexivity|].
  right. destruct (Z.compare_spec (2 * r) den) as [E|L|G].
  - right. left. split; [assumption | reflexivity].
  - left. repeat split; [lia | assumption].
  - right. right. split; [assumption | reflexivity].
Qed.

(** Rounding a quotient [q + r / den] of 53 or 54 digits to nearest:
    the result is finite and within half a unit of its last place. *)
Lemma round_aux_div (s : bool) (q r den e : Z) :
  Z.even den = true -> 0 <= r < den -> 2 ^ 52 <= q < 2 ^ 54 - 1 -> -1074 <= e <= 899 ->
  exists m j,
    (j = 0 \/ j = 1)
    /\ binary_round_aux prec emax s q e (new_location den r) = S754_finite s m (e + j)
    /\ Z.pos (digits2_pos m) = 53
    /\ 2 * Z.abs (2 ^ j * Z.pos m * den - (q * den + r)) <= 2 ^ j * den.
Proof.
  intros Hev Hr Hq He. unfold binary_round_aux.
  destruct q as [|qp|qp]; try lia.
  destruct (Z.ltb_spec (Z.pos qp) (2 ^ 53)) as [Hlt|Hge].
  - assert (Hd : Z.pos (digits2_pos qp) = 53) by (apply digits_unique; lia).
    rewrite shr_fexp_keep by lia.
    destruct (loc_of_record (Z.pos qp) (new_location den r)) as [-> ->].
    set (M := round_nearest_even (Z.pos qp) (new_location den r)).
    assert (HM : 2 ^ 52 <= M <= 2 ^ 53 /\ 2 * Z.abs (M * den - (Z.pos qp * den + r)) <= den).
    { subst M.
      destruct (new_location_even_cases den r Hev Hr)
        as [[-> ->] | [(? & ? & ->) | [[? ->] | [? ->]]]]; cbn [round_nearest_even];
        try destruct (Z.even (Z.pos qp)); split; lia. }
    destruct HM as [HM Hb].
    pose proof (round_aux_finish s M e HM ltac:(lia)) as Hf.
    destruct (shr_fexp prec emax M e loc_Exact) as [mrs e'].
    destruct Hf as (m & j & Hj & Hm & Hdm & ->).
    exists m, j. split; [tauto|]. split; [reflexivity|]. split; [exact Hdm|].
    rewrite Hm. destruct Hj as [-> | [-> _]]; change (2 ^ 0) with 1; change (2 ^ 1) with 2; lia.
  - assert (Hd : Z.pos (digits2_pos qp) = 54) by (apply digits_unique; lia).
    rewrite shr_fexp_once by lia.
    set (mrs := shr_1 (shr_record_of_loc (Z.pos qp) (new_location den r))).
    set (M := round_nearest_even (shr_m mrs) (loc_of_shr_record mrs)).
    assert (HM : 2 ^ 52 <= M < 2 ^ 53 /\ 2 * Z.abs (2 * M * den - (Z.pos qp * den + r)) <= 2 * den).
    { subst M mrs.
      destruct (new_location_even_cases den r Hev Hr)
        as [[-> ->] | [(? & ? & ->) | [[? ->] | [? ->]]]];
        destruct qp as [qp|qp|]; try lia;
        cbn [shr_record_of_loc shr_1 orb shr_m loc_of_shr_record round_nearest_even];
        try destruct (Z.even (Z.pos qp)); split; lia. }
    destruct HM as [HM Hb].
    pose proof (round_aux_finish s M (e + 1) ltac:(lia) ltac:(lia)) as Hf.
    destruct (shr_fexp prec emax M (e + 1) loc_Exact) as [mrs' e'].
    destruct Hf as (m & j & Hj & Hm & Hdm & ->).
    destruct Hj as [-> | [_ E]]; [|lia].
    exists m, 1. split; [right; reflexivity|]. rewrite Z.add_0_r. split; [reflexivity|].
    split; [exact Hdm|]. change (2 ^ 0) with 1 in Hm. change (2 ^ 1) with 2. lia.
Qed.

Lemma Number_of_msPerHour : Number_of_Z msPerHour = S754_finite false hourMantissa (-31).
Proof. reflexivity. Qed.

(** The Number of any nonzero integer below 2^54 - 1 in absolute value
    is finite, with the sign of the integer. *)
Lemma binary_round_finite (s : bool) (p : positive) :
  Z.pos p < 2 ^ 54 - 1 ->
  exists mx ex,
    binary_round prec emax s p 0 = S754_finite s mx ex
    /\ Z.pos (digits2_pos mx) = 53 /\ -52 <= ex <= 1.
Proof.
  intros Hp. destruct (Z.ltb_spec (Z.pos p) (2 ^ 53)) as [Hlt|Hge].
  - destruct (binary_round_small s p Hlt) as (mx & H & Hd & _).
    pose proof (digits_le_53 p Hlt). exists mx, (Z.pos (digits2_pos p) - 53).
    repeat split; try assumption; lia.
  - assert (Hd : Z.pos (digits2_pos p) = 54) by (apply digits_unique; lia).
    unfold binary_round, shl_align. rewrite Z.add_0_r, Hd, fexp_normal by lia.
    cbn [Z.sub Z.add Z.opp Z.pos_sub Pos.pred_double Pos.pred_double Z.succ_double
         Z.pred_double Z.double].
    destruct (round_aux_div s (Z.pos p) 0 2 0 eq_refl ltac:(lia) ltac:(lia) ltac:(lia))
      as (m & j & Hj & H & Hdm & _).
    change (new_location 2 0) with loc_Exact in H.
    exists m, (0 + j). split; [exact H|]. split; [exact Hdm|]. lia.
Qed.

(** The quotient of a finite Number of small exponent by the
    milliseconds of an hour: a finite Number of the same sign, within
    half a unit of its last place of the exact quotient. *)
Lemma Number_div_finite (s : bool) (mx : positive) (ex : Z) :
  Z.pos (digits2_pos mx) = 53 -> -52 <= ex <= 1 ->
  exists m e,
    Number_div (S754_finite s mx ex) (Number_of_Z msPerHour) = S754_finite s m e
    /\ Z.pos (digits2_pos m) = 53
    /\ (e = ex - 22 \/ e = ex - 21)
    /\ Z.abs (msPerHour * Z.pos m - Z.pos mx * 2 ^ (ex - e)) <= msPerHour / 2.
Proof.
  intros Hd Hex.
  rewrite Number_of_msPerHour. unfold Number_div, SFdiv, SFdiv_core_binary.
  cbn [Zdigits2]. rewrite Hd.
  change (Z.pos (digits2_pos hourMantissa)) with 53.
  replace (Z.min (fexp prec emax (53 + ex - (53 + -31))) (ex - -31))
    with (ex - 22) by (rewrite fexp_normal; lia).
  replace (ex - -31 - (ex - 22)) with 53 by lia.
  rewrite Z.shiftl_mul_pow2 by lia.
  pose proof (Z_div_mod (Z.pos mx * 2 ^ 53) (Z.pos hourMantissa) eq_refl) as Hdiv.
  destruct (Z.div_eucl (Z.pos mx * 2 ^ 53) (Z.pos hourMantissa)) as [q r].
  destruct Hdiv as [Hqr Hr].
  destruct (digits_bounds mx) as [Mlo Mhi]. rewrite Hd in Mlo, Mhi.
  assert (Hq : 2 ^ 52 <= q < 2 ^ 54 - 1).
  { unfold hourMantissa in *. change (53 - 1) with 52 in Mlo. lia. }
  destruct (round_aux_div (xorb s false) q r (Z.pos hourMantissa) (ex - 22)
              eq_refl Hr Hq ltac:(lia)) as (m & j & Hj & -> & Hdm & Hb).
  rewrite xorb_false_r. exists m, (ex - 22 + j). split; [reflexivity|].
  split; [exact Hdm|]. split; [lia|].
  unfold msPerHour, hourMantissa in *.
  change (1000 * 60 * 60 / 2) with 1800000. change (1000 * 60 * 60) with 3600000.
  change (2 ^ 53) with 9007199254740992 in Hqr.
  destruct Hj as [-> | ->].
  - replace (ex - (ex - 22 + 0)) with 22 by lia.
    change (2 ^ 0) with 1 in Hb. change (2 ^ 22) with 4194304. lia.
  - replace (ex - (ex - 22 + 1)) with 21 by lia.
    change (2 ^ 1) with 2 in Hb. change (2 ^ 21) with 2097152. lia.
Qed.

(** For a nonzero integer below 2^53 the bound is one on the integer. *)
Lemma Number_div_hour (s : bool) (p : positive) :
  Z.pos p < 2 ^ 53 ->
  exists m e,
    Number_div (binary_round prec emax s p 0) (Number_of_Z msPerHour) = S754_finite s m e
    /\ 21 <= - e <= 74
    /\ Z.abs (msPerHour * Z.pos m - Z.pos p * 2 ^ (- e)) <= msPerHour / 2.
Proof.
  intros Hp. destruct (binary_round_small s p Hp) as (mx & -> & Hd & Hmx).
  pose proof (digits_le_53 p Hp) as Hn.
  set (n := Z.pos (digits2_pos p)) in *.
  assert (0 < n) by (subst n; lia).
  destruct (Number_div_finite s mx (n - 53) Hd ltac:(lia)) as (m & e & Hx & _ & He & Hb).
  exists m, e. split; [exact Hx|]. split; [lia|].
  rewrite Hmx, <- Z.mul_assoc, <- Z.pow_add_r in Hb by lia.
  replace (53 - n + (n - 53 - e)) with (- e) in Hb by lia. exact Hb.
Qed.

(** The tenths [toFixed] prints for such a quotient are the tenths of
    an hour nearest to the integer of milliseconds. *)
Lemma tenths_near (p m : positive) (e : Z) :
  Z.pos p < 2 ^ 53 -> 21 <= - e ->
  Z.abs (msPerHour * Z.pos m - Z.pos p * 2 ^ (- e)) <= msPerHour / 2 ->
  floor_abs m e < 10 ^ 21
  /\ 0 <= tenths m e
  /\ Z.abs (360000 * tenths m e - Z.pos p) <= 180000.
Proof.
  intros Hp He Hb. unfold floor_abs, tenths.
  destruct (Z.leb_spec 0 e) as [|_]; [lia|].
  replace (1 - e) with (Z.succ (- e)) by lia. rewrite Z.pow_succ_r by lia.
  assert (HW : 2 ^ 21 <= 2 ^ (- e)) by (apply Z.pow_le_mono_r; lia).
  set (W := 2 ^ (- e)) in *.
  change (2 ^ 21) with 2097152 in HW. change (2 ^ 53) with 9007199254740992 in Hp.
  change (msPerHour / 2) with 1800000 in Hb. change msPerHour with 3600000 in Hb.
  assert (HpW : Z.pos p * W <= 9007199254740992 * W)
    by (apply Z.mul_le_mono_nonneg_r; lia).
  split; [|split].
  - apply Z.div_lt_upper_bound; [lia|]. change (10 ^ 21) with 1000000000000000000000. lia.
  - apply Z.div_pos; lia.
  - pose proof (Z.div_mod (20 * Z.pos m + W) (2 * W) ltac:(lia)) as Hdm.
    pose proof (Z.mod_pos_bound (20 * Z.pos m + W) (2 * W) ltac:(lia)) as Hmod.
    set (n := (20 * Z.pos m + W) / (2 * W)) in *.
    set (X := 360000 * n - Z.pos p) in *.
    assert (HX : W * X = 360000 * (W * n) - Z.pos p * W) by (subst X; ring).
    assert (X <= 180000).
    { destruct (Z.le_gt_cases X 180000) as [|G]; [assumption|].
      assert (W * 180001 <= W * X) by (apply Z.mul_le_mono_nonneg_l; lia). lia. }
    assert (-180000 <= X).
    { destruct (Z.le_gt_cases (-180000) X) as [|G]; [assumption|].
      assert (W * X <= W * (-180001)) by (apply Z.mul_le_mono_nonneg_l; lia). lia. }
    lia.
Qed.

(** The sign of a rounded result is the sign it was given. *)
Lemma round_aux_opp (s : bool) (m e : Z) (l : location) :
  binary_round_aux prec emax (negb s) m e l = SFopp (binary_round_aux prec emax s m e l).
Proof.
  unfold binary_round_aux.
  destruct (shr_fexp prec emax m e l) as [mrs' e'].
  destruct (shr_fexp prec emax _ e' loc_Exact) as [mrs'' e''].
  destruct (shr_m mrs''); [reflexivity | | reflexivity].
  destruct (e'' <=? emax - prec); reflexivity.
Qed.

Lemma Number_of_Z_opp (d : Z) : d <> 0 -> Number_of_Z (- d) = SFopp (Number_of_Z d).
Proof.
  intros Hd. destruct d as [|p|p]; [contradiction | |];
    unfold Number_of_Z, binary_normalize, binary_round; cbn [Z.opp];
    destruct (shl_align p 0 _) as [mz ez].
  - exact (round_aux_opp false (Z.pos mz) ez loc_Exact).
  - pose proof (round_aux_opp true (Z.pos mz) ez loc_Exact) as H.
    cbn [negb] in H. rewrite H.
    destruct (binary_round_aux prec emax true (Z.pos mz) ez loc_Exact) as [[]|[]| |[] ? ?];
      reflexivity.
Qed.

Lemma Number_div_opp (x : Number) :
  Number_div (SFopp x) (Number_of_Z msPerHour) = SFopp (Number_div x (Number_of_Z msPerHour)).
Proof.
  rewrite Number_of_msPerHour. unfold Number_div.
  destruct x as [s|s| |s m e]; try reflexivity; unfold SFdiv, SFopp.
  - rewrite xorb_false_r. destruct s; reflexivity.
  - rewrite xorb_false_r. destruct s; reflexivity.
  - destruct (SFdiv_core_binary prec emax (Z.pos m) e (Z.pos hourMantissa) (-31))
      as [[mz ez] lz].
    rewrite !xorb_false_r. apply round_aux_opp.
Qed.

(** [toFixed(1)] of a finite Number with 53 digits and a negative
    exponent, which is below 2^53: its sign and its tenths. *)
Lemma toFixed1_finite (P : Platform) (s : bool) (m : positive) (e : Z) :
  Z.pos (digits2_pos m) = 53 -> e < 0 ->
  0 <= tenths m e
  /\ toFixed1 P (S754_finite s m e)
     = (if s then lit "-" else [])
       ++ decimal (tenths m e / 10) ++ lit "." ++ decimal (tenths m e mod 10).
Proof.
  intros Hd He. destruct (digits_bounds m) as [_ Hm]. rewrite Hd in Hm.
  assert (HW : 0 < 2 ^ (- e)) by (apply Z.pow_pos_nonneg; lia).
  split.
  - unfold tenths. destruct (Z.leb_spec 0 e); [lia|].
    apply Z.div_pos; [lia|]. apply Z.pow_pos_nonneg; lia.
  - unfold toFixed1, floor_abs. destruct (Z.leb_spec 0 e); [lia|].
    destruct (Z.leb_spec (10 ^ 21) (Z.pos m / 2 ^ (- e))) as [Hbig|]; [|reflexivity].
    assert (Z.pos m / 2 ^ (- e) <= Z.pos m); [|lia].
    apply Z.div_le_upper_bound; [lia|]. nia.
Qed.

(** What [toFixed(1)] prints for an offset of [d] milliseconds taken in
    hours, and for the opposite offset: the same tenths, each with the
    sign of its offset. *)
Lemma offset_texts (P : Platform) (d : Z) :
  Z.abs d < 2 ^ 54 - 1 ->
  exists n,
    0 <= n
    /\ toFixed1 P (Number_div (Number_of_Z d) (Number_of_Z msPerHour)) = signed_tenths d n
    /\ toFixed1 P (Number_div (Number_of_Z (- d)) (Number_of_Z msPerHour))
       = signed_tenths (- d) n.
Proof.
  intros Hd. destruct (Z.eq_dec d 0) as [->|Hne].
  - exists 0. repeat split; try reflexivity; lia.
  - rewrite (Number_of_Z_opp d Hne), Number_div_opp.
    assert (Hx : exists m e,
               Number_div (Number_of_Z d) (Number_of_Z msPerHour)
               = S754_finite (d <? 0) m e
               /\ Z.pos (digits2_pos m) = 53 /\ e < 0).
    { destruct d as [|p|p]; [contradiction | |];
        unfold Number_of_Z at 1, binary_normalize;
        [destruct (binary_round_finite false p Hd) as (mx & ex & -> & Hdx & Hex)
        |destruct (binary_round_finite true p Hd) as (mx & ex & -> & Hdx & Hex)];
        [destruct (Number_div_finite false mx ex Hdx Hex) as (m & e & -> & Hdm & He & _)
        |destruct (Number_div_finite true mx ex Hdx Hex) as (m & e & -> & Hdm & He & _)];
        exists m, e; repeat split; try assumption; lia. }
    destruct Hx as (m & e & -> & Hdm & He). cbn [SFopp].
    destruct (toFixed1_finite P (d <? 0) m e Hdm He) as [Hn ->].
    destruct (toFixed1_finite P (negb (d <? 0)) m e Hdm He) as [_ ->].
    exists (tenths m e). split; [exact Hn|]. unfold signed_tenths.
    replace (- d <? 0) with (negb (d <? 0)); [split; reflexivity|].
    destruct (Z.ltb_spec d 0), (Z.ltb_spec (- d) 0); try reflexivity; lia.
Qed.

(** Below 2^53 milliseconds the tenths printed are the tenths of an
    hour nearest to the offset. *)
Lemma toFixed1_offset (P : Platform) (d : Z) :
  Z.abs d < 2 ^ 53 ->
  exists n,
    0 <= n /\ Z.abs (360000 * n - Z.abs d) <= 180000
    /\ toFixed1 P (Number_div (Number_of_Z d) (Number_of_Z msPerHour)) = signed_tenths d n.
Proof.
  intros Hd. destruct d as [|p|p].
  - exists 0. repeat split; try reflexivity; simpl; lia.
  - destruct (Number_div_hour false p Hd) as (m & e & Hx & He & Hb).
    destruct (tenths_near p m e Hd ltac:(lia) Hb) as (Hbig & Hn & Hnear).
    exists (tenths m e). split; [assumption|]. split; [exact Hnear|].
    unfold Number_of_Z at 1, binary_normalize. rewrite Hx. unfold toFixed1.
    destruct (Z.leb_spec (10 ^ 21) (floor_abs m e)); [lia | reflexivity].
  - destruct (Number_div_hour true p Hd) as (m & e & Hx & He & Hb).
    destruct (tenths_near p m e Hd ltac:(lia) Hb) as (Hbig & Hn & Hnear).
    exists (tenths m e). split; [assumption|]. split; [exact Hnear|].
    unfold Number_of_Z at 1, binary_normalize. rewrite Hx. unfold toFixed1.
    destruct (Z.leb_spec (10 ^ 21) (floor_abs m e)); [lia | reflexivity].
Qed.

End Binary64.

Section Offsets.

Variable P : Platform.
Variable now : Z.

Lemma Date_of_string_range (str : JSString) (t : Z) :
  Date_of_string P str = Some t -> Z.abs t <= JSDate.maxTime.
Proof.
  unfold Date_of_string, TimeClip. destruct (Date_parse P str) as [t0|]; [|discriminate].
  destruct (Z.leb_spec (Z.abs t0) JSDate.maxTime); [|discriminate].
  intros E. injection E as <-. assumption.
Qed.

(** Two readings of wall clocks are less than 2^54 - 1 ms apart. *)
Lemma reads_range (c : AppComponent) (k : Reading) :
  reads P now c k -> Z.abs (targetWall k - sourceWall k) < 2 ^ 54 - 1.
Proof.
  intros (src & tgt & srcStr & tgtStr & _ & _ & _ & _ & _ & _ & Hsw & Htw & _).
  apply Date_of_string_range in Hsw, Htw. unfold JSDate.maxTime in *.
  change (2 ^ 54 - 1) with 18014398509481983. lia.
Qed.

(** The readings of a conversion are determined by the state. *)
Lemma reads_walls (c : AppComponent) (k k' : Reading) :
  reads P now c k -> reads P now c k' ->
  sourceWall k' = sourceWall k /\ targetWall k' = targetWall k.
Proof.
  intros (src & tgt & srcStr & tgtStr & Hs & Ht & _ & _ & Hss & Hts & Hsw & Htw & _)
         (src' & tgt' & srcStr' & tgtStr' & Hs' & Ht' & _ & _ & Hss' & Hts' & Hsw' & Htw'
          & _).
  rewrite Hs in Hs'. injection Hs' as <-. rewrite Ht in Ht'. injection Ht' as <-.
  rewrite Hss in Hss'. injection Hss' as <-. rewrite Hts in Hts'. injection Hts' as <-.
  rewrite Hsw in Hsw'. rewrite Htw in Htw'. split; congruence.
Qed.

(** With source and target exchanged the two readings of the current
    instant are exchanged. *)
Lemma reads_exchanged (c c' : AppComponent) (k k' : Reading) :
  sourceLocation c' = targetLocation c -> targetLocation c' = sourceLocation c ->
  reads P now c k -> reads P now c' k' ->
  sourceWall k' = targetWall k /\ targetWall k' = sourceWall k.
Proof.
  intros Es Et
         (src & tgt & srcStr & tgtStr & Hs & Ht & _ & _ & Hss & Hts & Hsw & Htw & _)
         (src' & tgt' & srcStr' & tgtStr' & Hs' & Ht' & _ & _ & Hss' & Hts' & Hsw' & Htw'
          & _).
  rewrite Es, Ht in Hs'. injection Hs' as <-. rewrite Et, Hs in Ht'. injection Ht' as <-.
  rewrite Hts in Hss'. injection Hss' as <-. rewrite Hss in Hts'. injection Hts' as <-.
  rewrite Htw in Hsw'. rewrite Hsw in Htw'. split; congruence.
Qed.

(** Two conversions at one instant, the second with source and target
    exchanged, print the same tenths, each with the sign of its own
    offset. *)
Lemma diffHours_exchanged (c c' : AppComponent) (r r' : ConversionResult) :
  sourceLocation c' = targetLocation c -> targetLocation c' = sourceLocation c ->
  convertedResult P now c = Some r -> convertedResult P now c' = Some r' ->
  exists k n,
    reads P now c k /\ 0 <= n
    /\ diffHours r = signed_tenths (targetWall k - sourceWall k) n
    /\ diffHours r' = signed_tenths (sourceWall k - targetWall k) n.
Proof.
  intros Es Et H H'.
  destruct (convertedResult_Some P now c r H) as (k & Hk & _ & _ & -> & _).
  destruct (convertedResult_Some P now c' r' H') as (k' & Hk' & _ & _ & -> & _).
  destruct (reads_exchanged c c' k k' Es Et Hk Hk') as [-> ->].
  destruct (offset_texts P (targetWall k - sourceWall k) (reads_range c k Hk))
    as (n & Hn & Hd & Ho).
  exists k, n. split; [exact Hk|]. split; [exact Hn|]. split; [exact Hd|].
  replace (sourceWall k - targetWall k) with (- (targetWall k - sourceWall k)) by lia.
  exact Ho.
Qed.

End Offsets.

(** C4. When both locations are present, the selected date is well
    formed and the host gives the readings, the conversion has a result
    and its [diffHours] is the offset of the target against the source,
    as read off the two wall clocks at the current instant, in hours
    with one decimal: a minus sign when the target is behind, then the
    number of tenths of an hour nearest to the offset, printed with a
    point before the last digit. The offset is below 2^53 milliseconds,
    the range in which the difference of two readings is an exact
    Number. *)
Theorem diffHours_is_rounded_offset (P : Platform) (now : Z) (c : AppComponent)
    (k : Reading) :
  reads P now c k ->
  Z.abs (targetWall k - sourceWall k) < 2 ^ 53 ->
  exists r n,
    convertedResult P now c = Some r
    /\ 0 <= n
    /\ Z.abs (msPerHour / 10 * n - Z.abs (targetWall k - sourceWall k)) <= msPerHour / 20
    /\ diffHours r = signed_tenths (targetWall k - sourceWall k) n.
Proof.
  intros Hk Hd.
  destruct (convertedResult_reads P now c k Hk) as [r H].
  destruct (convertedResult_Some P now c r H) as (k' & Hk' & _ & _ & Hr & _).
  destruct (reads_walls P now c k k' Hk Hk') as [Es Et]. rewrite Es, Et in Hr.
  destruct (toFixed1_offset P (targetWall k - sourceWall k) Hd) as (n & Hn & Hnear & Hf).
  exists r, n. rewrite Hr. repeat split; assumption.
Qed.

Lemma diffHours_is_rounded_offset_witness :
  exists r n,
    convertedResult (Sample.host Sample.remote_up) Sample.now Sample.london_newyork = Some r
    /\ 0 <= n
    /\ Z.abs (msPerHour / 10 * n - Z.abs (1718445600000 - 1718463600000))
       <= msPerHour / 20
    /\ diffHours r = signed_tenths (1718445600000 - 1718463600000) n.
Proof.
  apply (diffHours_is_rounded_offset (Sample.host Sample.remote_up) Sample.now
           Sample.london_newyork
           {| sourceWall := 1718463600000; targetWall := 1718445600000;
              inputWallTime := 1718416800000; targetWallTime := 1718398800000 |}).
  - exists Sample.london, Sample.newyork,
      (lit "6/15/2024, 15:00:00"), (lit "6/15/2024, 10:00:00").
    repeat split; try reflexivity; discriminate.
  - reflexivity.
Defined.

(** C7. Converting from A to B and, at the same instant, from B to A
    as after a swap gives two [diffHours] of equal magnitude and
    opposite sign: both print the same tenths of an hour, the first
    with the sign of the offset of B against A, the second with the
    sign of the offset of A against B. *)
Theorem swap_negates_diffHours (P : Platform) (now swapped : Z) (c : AppComponent)
    (r r' : ConversionResult) :
  convertedResult P now c = Some r ->
  convertedResult P now (swapLocations P swapped c) = Some r' ->
  exists k n,
    reads P now c k /\ 0 <= n
    /\ diffHours r = signed_tenths (targetWall k - sourceWall k) n
    /\ diffHours r' = signed_tenths (sourceWall k - targetWall k) n.
Proof.
  intros H H'.
  destruct (swapLocations_fields P swapped c) as (Es & Et & _).
  exact (diffHours_exchanged P now c _ r r' Es Et H H').
Qed.

Lemma swap_negates_diffHours_witness :
  exists r r',
    convertedResult (Sample.host Sample.remote_up) Sample.now Sample.london_newyork = Some r
    /\ convertedResult (Sample.host Sample.remote_up) Sample.now
         (swapLocations (Sample.host Sample.remote_up) Sample.now Sample.london_newyork)
       = Some r'
    /\ diffHours r = lit "-5.0" /\ diffHours r' = lit "5.0"
    /\ exists k n,
         reads (Sample.host Sample.remote_up) Sample.now Sample.london_newyork k
         /\ 0 <= n
         /\ diffHours r = signed_tenths (targetWall k - sourceWall k) n
         /\ diffHours r' = signed_tenths (sourceWall k - targetWall k) n.
Proof.
  eexists. eexists. split; [reflexivity|]. split; [reflexivity|].
  split; [reflexivity|]. split; [reflexivity|].
  apply (swap_negates_diffHours (Sample.host Sample.remote_up) Sample.now Sample.now
           Sample.london_newyork); reflexivity.
Defined.

(** * Further properties of the code *)

(** ** More on the resolver *)

Section Requests.

Lemma prompt_inj (q q' : JSString) : prompt q = prompt q' -> q = q'.
Proof.
  unfold prompt. intros H.
  apply app_inv_head in H. apply app_inv_head in H.
  rewrite !app_assoc in H. do 6 apply app_inv_tail in H. exact H.
Qed.

Lemma conforms_fields (props : list (JSString * JSValue)) :
  conforms (JSObject props) = true ->
  well_typed (copied (JSObject props)) = true
  /\ exists b, lookup (lit "valid") props = Some (JSBool b).
Proof.
  unfold conforms, responseSchema. cbn [forallb]. rewrite !andb_true_iff.
  intros (H1 & H2 & H3 & H4 & H5 & H6 & H7 & _).
  unfold well_typed, copied. cbn [ianaTimezone fullName city country countryCode funFact].
  destruct (lookup (lit "ianaTimezone") props) as [[]|]; try discriminate.
  destruct (lookup (lit "fullName") props) as [[]|]; try discriminate.
  destruct (lookup (lit "city") props) as [[]|]; try discriminate.
  destruct (lookup (lit "country") props) as [[]|]; try discriminate.
  destruct (lookup (lit "countryCode") props) as [[]|]; try discriminate.
  destruct (lookup (lit "funFact") props) as [[]|]; try discriminate.
  destruct (lookup (lit "valid") props) as [[]|]; try discriminate.
  split; [reflexivity|]. eexists. reflexivity.
Qed.

End Requests.

(** X1. The request carries the query as typed: for a query of trimmed
    length at least 2 exactly one request is sent, whatever the
    service answers, and two queries that send the same request are the
    same string, white space included. *)
Theorem request_identifies_query (P : Platform) (query query' : JSString) :
  (2 <= List.length (trim query))%nat ->
  snd (resolveLocation P query) = [request query]
  /\ (request query = request query' -> query = query').
Proof.
  intros H. rewrite (resolveLocation_long P query H). split; [reflexivity|].
  intros E. apply prompt_inj. exact (f_equal contents E).
Qed.

Lemma request_identifies_query_witness :
  snd (resolveLocation (Sample.host Sample.remote_down) (lit " London")) = [request (lit " London")]
  /\ (request (lit " London") = request (lit "London") -> lit " London" = lit "London").
Proof.
  apply request_identifies_query. simpl. lia.
Defined.

(** X2. When the service honours the schema the result is typed as the
    interface says: a conforming body has a boolean [valid], the result
    is [null] exactly when it is [false], and otherwise the six fields
    of the record are the six strings of the body. *)
Theorem conforming_body_is_typed (P : Platform) (query : JSString) text props :
  (2 <= List.length (trim query))%nat ->
  generateContent P (request query) = Replied text ->
  JSON_parse P (text_or_default text) = Some (JSObject props) ->
  conforms (JSObject props) = true ->
  exists valid,
    lookup (lit "valid") props = Some (JSBool valid)
    /\ fst (resolveLocation P query)
       = Returned (if valid then Some (copied (JSObject props)) else None)
    /\ well_typed (copied (JSObject props)) = true.
Proof.
  intros Hlen Hcall Hparse Hc.
  destruct (conforms_fields props Hc) as [Ht [b Hb]].
  exists b. split; [exact Hb|]. split; [|exact Ht].
  rewrite (resolveLocation_long P query Hlen). cbn [fst].
  rewrite (try_parsed P query text _ Hcall Hparse). unfold usable. rewrite Hb.
  reflexivity.
Qed.

Lemma conforming_body_is_typed_witness :
  exists valid,
    lookup (lit "valid") Sample.london_body = Some (JSBool valid)
    /\ fst (resolveLocation (Sample.host Sample.remote_up) (lit "London"))
       = Returned (if valid then Some (copied (JSObject Sample.london_body)) else None)
    /\ well_typed (copied (JSObject Sample.london_body)) = true.
Proof.
  apply (conforming_body_is_typed (Sample.host Sample.remote_up) (lit "London")
           (Some (Sample.show_object Sample.london_body))).
  - simpl. lia.
  - reflexivity.
  - reflexivity.
  - reflexivity.
Defined.

(** ** More on resolution in the component *)

Section Attempts.

Variable P : Platform.
Variable now : Z.

Lemma long_nonempty (query : JSString) :
  (2 <= List.length (trim query))%nat -> query <> [].
Proof. intros H ->. simpl in H. lia. Qed.

Lemma nonempty_eqb (query : JSString) : query <> [] -> eqb query [] = false.
Proof. destruct query; [contradiction | reflexivity]. Qed.

Lemma resolveSource_run (query : JSString) (c : AppComponent) :
  query <> [] ->
  resolveSource P now query c
  = (resolveSource_resume P now query (fst (resolveLocation P query))
       (set_sourceQuery (JSStr query) (set_error None (set_isLoadingSource true c))),
     snd (resolveLocation P query)).
Proof.
  intros H. unfold resolveSource, resolveSource_start. rewrite (nonempty_eqb query H).
  destruct (resolveLocation P query). reflexivity.
Qed.

Lemma resolveTarget_run (query : JSString) (c : AppComponent) :
  query <> [] ->
  resolveTarget P query c
  = (resolveTarget_resume query (fst (resolveLocation P query))
       (set_targetQuery (JSStr query) (set_error None (set_isLoadingTarget true c))),
     snd (resolveLocation P query)).
Proof.
  intros H. unfold resolveTarget, resolveTarget_start. rewrite (nonempty_eqb query H).
  destruct (resolveLocation P query). reflexivity.
Qed.


Lemma resolveLocation_usable (query : JSString) text data :
  (2 <= List.length (trim query))%nat ->
  generateContent P (request query) = Replied text ->
  JSON_parse P (text_or_default text) = Some data ->
  usable data = true ->
  resolveLocation P query = (Returned (Some (copied data)), [request query]).
Proof.
  intros Hlen Hcall Hparse Hu. rewrite (resolveLocation_long P query Hlen).
  rewrite (try_parsed P query text data Hcall Hparse), Hu. reflexivity.
Qed.


End Attempts.



(** X4. A query that is not empty but shorter than 2 once trimmed, a
    single letter or blanks, passes the guard of the component and
    stops at the guard of the service: the slot shows the not-found
    message and no request is sent. *)
Theorem short_query_not_found (P : Platform) (now : Z) (query : JSString)
    (c : AppComponent) :
  query <> [] -> (List.length (trim query) < 2)%nat ->
  snd (resolveSource P now query c) = []
  /\ error (fst (resolveSource P now query c)) = Some (notFound query)
  /\ snd (resolveTarget P query c) = []
  /\ error (fst (resolveTarget P query c)) = Some (notFound query).
Proof.
  intros Hq Hshort.
  rewrite (resolveSource_run P now query c Hq), (resolveTarget_run P query c Hq).
  unfold resolveLocation. rewrite (resolveLocation_guard query Hshort).
  repeat split.
Qed.

Lemma short_query_not_found_witness :
  snd (resolveSource (Sample.host Sample.remote_up) Sample.now (lit "  ") Sample.fresh) = []
  /\ error (fst (resolveSource (Sample.host Sample.remote_up) Sample.now (lit "  ")
                   Sample.fresh))
     = Some (lit "Could not find location:   ")
  /\ snd (resolveTarget (Sample.host Sample.remote_up) (lit "  ") Sample.fresh) = []
  /\ error (fst (resolveTarget (Sample.host Sample.remote_up) (lit "  ") Sample.fresh))
     = Some (lit "Could not find location:   ").
Proof.
  apply (short_query_not_found (Sample.host Sample.remote_up) Sample.now (lit "  ")
           Sample.fresh).
  - discriminate.
  - simpl. lia.
Defined.

(** X5. A source resolution the service answers with a usable body ends
    with the location installed, the query text replaced by the full
    name, no error and the slot not loading, after one request. The
    selected date becomes the current time in the new zone; when the
    host cannot format that zone the date stays and the resolution
    still succeeds, without an error message. *)
Theorem source_resolved (P : Platform) (now : Z) (query : JSString) (c : AppComponent)
    text data :
  (2 <= List.length (trim query))%nat ->
  generateContent P (request query) = Replied text ->
  JSON_parse P (text_or_default text) = Some data ->
  usable data = true ->
  let s := fst (resolveSource P now query c) in
  snd (resolveSource P now query c) = [request query]
  /\ sourceLocation s = Some (copied data)
  /\ sourceQuery s = fullName (copied data)
  /\ selectedDate s = seeded P now (ianaTimezone (copied data)) (selectedDate c)
  /\ error s = None
  /\ isLoadingSource s = false.
Proof.
  intros Hlen Hcall Hparse Hu s. subst s.
  rewrite (resolveSource_run P now query c (long_nonempty query Hlen)).
  rewrite (resolveLocation_usable P query text data Hlen Hcall Hparse Hu).
  cbn [fst snd]. unfold resolveSource_resume, updateTimeForSource, seeded.
  destruct (Intl_formatToParts P (ianaTimezone (copied data)) now); repeat split.
Qed.

Lemma source_resolved_witness :
  sourceLocation (fst (resolveSource (Sample.host Sample.remote_up) Sample.now
                         (lit "London") Sample.fresh))
  = Some Sample.london
  /\ selectedDate (fst (resolveSource (Sample.host Sample.remote_up) Sample.now
                          (lit "London") Sample.fresh))
     = lit "2024-06-15T15:00".
Proof.
  pose proof (source_resolved (Sample.host Sample.remote_up) Sample.now (lit "London")
                Sample.fresh (Some (Sample.show_object Sample.london_body))
                (JSObject Sample.london_body)) as H.
  destruct H as (_ & Hl & _ & Hd & _); try reflexivity.
  - simpl. lia.
  - split; [exact Hl | exact Hd].
Defined.

(** X6. A target resolution the service answers with a usable body ends
    with the location installed, the query text replaced by the full
    name, no error and the slot not loading, after one request; it
    never changes the selected date. *)
Theorem target_resolved (P : Platform) (query : JSString) (c : AppComponent) text data :
  (2 <= List.length (trim query))%nat ->
  generateContent P (request query) = Replied text ->
  JSON_parse P (text_or_default text) = Some data ->
  usable data = true ->
  let t := fst (resolveTarget P query c) in
  snd (resolveTarget P query c) = [request query]
  /\ targetLocation t = Some (copied data)
  /\ targetQuery t = fullName (copied data)
  /\ selectedDate t = selectedDate c
  /\ error t = None
  /\ isLoadingTarget t = false.
Proof.
  intros Hlen Hcall Hparse Hu t. subst t.
  rewrite (resolveTarget_run P query c (long_nonempty query Hlen)).
  rewrite (resolveLocation_usable P query text data Hlen Hcall Hparse Hu).
  repeat split.
Qed.

Lemma target_resolved_witness :
  targetLocation (fst (resolveTarget (Sample.host Sample.remote_up) (lit "New York")
                         Sample.fresh))
  = Some Sample.newyork
  /\ selectedDate (fst (resolveTarget (Sample.host Sample.remote_up) (lit "New York")
                          Sample.fresh))
     = selectedDate Sample.fresh.
Proof.
  pose proof (target_resolved (Sample.host Sample.remote_up) (lit "New York")
                Sample.fresh (Some (Sample.show_object Sample.newyork_body))
                (JSObject Sample.newyork_body)) as H.
  destruct H as (_ & Hl & _ & Hd & _); try reflexivity.
  - simpl. lia.
  - split; [exact Hl | exact Hd].
Defined.

Section Completions.

Variable P : Platform.
Variable now : Z.

(** What a completion of the source slot writes and what it leaves. *)
Lemma resolveSource_resume_frame (query : JSString) r (c : AppComponent) :
  let s := resolveSource_resume P now query r c in
  targetLocation s = targetLocation c /\ targetQuery s = targetQuery c
  /\ isLoadingTarget s = isLoadingTarget c /\ isLoadingSource s = false.
Proof.
  unfold resolveSource_resume, updateTimeForSource.
  destruct r as [[result|]|e];
    [destruct (Intl_formatToParts P (ianaTimezone result) now)| |]; repeat split.
Qed.

Lemma resolveTarget_resume_frame (query : JSString) r (c : AppComponent) :
  let t := resolveTarget_resume query r c in
  sourceLocation t = sourceLocation c /\ sourceQuery t = sourceQuery c
  /\ isLoadingSource t = isLoadingSource c /\ selectedDate t = selectedDate c
  /\ isLoadingTarget t = false.
Proof.
  unfold resolveTarget_resume. destruct r as [[result|]|e]; repeat split.
Qed.

(** The fields of the source slot after its completion depend on the
    state it resumes on through those fields only. *)
Lemma resolveSource_resume_own (query : JSString) r (c c' : AppComponent) :
  sourceLocation c' = sourceLocation c -> sourceQuery c' = sourceQuery c ->
  selectedDate c' = selectedDate c ->
  let s := resolveSource_resume P now query r c in
  let s' := resolveSource_resume P now query r c' in
  sourceLocation s' = sourceLocation s /\ sourceQuery s' = sourceQuery s
  /\ selectedDate s' = selectedDate s.
Proof.
  intros Hl Hq Hd. unfold resolveSource_resume.
  destruct r as [[result|]|e]; cbn; try (repeat split; assumption).
  unfold updateTimeForSource.
  destruct (Intl_formatToParts P (ianaTimezone result) now); cbn; repeat split; assumption.
Qed.

Lemma resolveSource_resume_error (query : JSString) r (c : AppComponent) :
  error (resolveSource_resume P now query r c)
  = match r with
    | Returned (Some _) => error c
    | Returned None => Some (notFound query)
    | Threw _ => Some (lit "Failed to resolve source location.")
    end.
Proof.
  unfold resolveSource_resume, updateTimeForSource.
  destruct r as [[result|]|e];
    [destruct (Intl_formatToParts P (ianaTimezone result) now)| |]; reflexivity.
Qed.

Lemma resolveTarget_resume_error (query : JSString) r (c : AppComponent) :
  error (resolveTarget_resume query r c)
  = match r with
    | Returned (Some _) => error c
    | Returned None => Some (notFound query)
    | Threw _ => Some (lit "Failed to resolve target location.")
    end.
Proof. unfold resolveTarget_resume. destruct r as [[result|]|e]; reflexivity. Qed.

Lemma resolveTarget_resume_own (query : JSString) r (c c' : AppComponent) :
  targetLocation c' = targetLocation c -> targetQuery c' = targetQuery c ->
  let t := resolveTarget_resume query r c in
  let t' := resolveTarget_resume query r c' in
  targetLocation t' = targetLocation t /\ targetQuery t' = targetQuery t.
Proof.
  intros Hl Hq. unfold resolveTarget_resume.
  destruct r as [[result|]|e]; cbn; repeat split; assumption.
Qed.

End Completions.

(** X7. The two slots do not write into each other. A source attempt,
    however it ends, leaves the target location, the target query text
    and the target loading flag as they were; a target attempt leaves
    the source location, the source query text, the source loading
    flag and the selected date. Every completion, fulfilled with a
    location, with [null] or thrown, clears the loading flag of its own
    slot. *)
Theorem slots_are_separate (P : Platform) (now : Z) (query : JSString)
    (r : Completion (option LocationInfo)) (c : AppComponent) :
  let s := fst (resolveSource P now query c) in
  let t := fst (resolveTarget P query c) in
  (targetLocation s = targetLocation c /\ targetQuery s = targetQuery c
   /\ isLoadingTarget s = isLoadingTarget c)
  /\ (sourceLocation t = sourceLocation c /\ sourceQuery t = sourceQuery c
      /\ isLoadingSource t = isLoadingSource c /\ selectedDate t = selectedDate c)
  /\ isLoadingSource (resolveSource_resume P now query r c) = false
  /\ isLoadingTarget (resolveTarget_resume query r c) = false.
Proof.
  intros s t. subst s t. split; [|split; [|split]].
  - destruct query as [|a q]; [repeat split|].
    rewrite (resolveSource_run P now (a :: q) c) by discriminate. cbn [fst].
    destruct (resolveSource_resume_frame P now (a :: q) (fst (resolveLocation P (a :: q)))
                (set_sourceQuery (JSStr (a :: q))
                   (set_error None (set_isLoadingSource true c))))
      as (-> & -> & -> & _).
    repeat split.
  - destruct query as [|a q]; [repeat split|].
    rewrite (resolveTarget_run P (a :: q) c) by discriminate. cbn [fst].
    destruct (resolveTarget_resume_frame (a :: q) (fst (resolveLocation P (a :: q)))
                (set_targetQuery (JSStr (a :: q))
                   (set_error None (set_isLoadingTarget true c))))
      as (-> & -> & -> & -> & _).
    repeat split.
  - apply resolveSource_resume_frame.
  - apply resolveTarget_resume_frame.
Qed.

(** X8. Two calls in flight, one per slot, may complete in either order:
    the locations, the query texts, the loading flags and the selected
    date come out the same. Only the error depends on the order: it is
    the message of the failed completion that ran last, so that the
    orders can differ only when both calls fail. *)
Theorem completions_commute (P : Platform) (now : Z) (qs qt : JSString)
    (rs rt : Completion (option LocationInfo)) (c : AppComponent) :
  let a := resolveTarget_resume qt rt (resolveSource_resume P now qs rs c) in
  let b := resolveSource_resume P now qs rs (resolveTarget_resume qt rt c) in
  sourceLocation a = sourceLocation b /\ targetLocation a = targetLocation b
  /\ sourceQuery a = sourceQuery b /\ targetQuery a = targetQuery b
  /\ isLoadingSource a = isLoadingSource b /\ isLoadingTarget a = isLoadingTarget b
  /\ selectedDate a = selectedDate b
  /\ error a = (if succeeded rt then error (resolveSource_resume P now qs rs c)
                else error (resolveTarget_resume qt rt c))
  /\ error b = (if succeeded rs then error (resolveTarget_resume qt rt c)
                else error (resolveSource_resume P now qs rs c))
  /\ (succeeded rs || succeeded rt = true -> error a = error b).
Proof.
  intros a b. subst a b.
  set (s := resolveSource_resume P now qs rs c).
  set (t := resolveTarget_resume qt rt c).
  destruct (resolveTarget_resume_frame qt rt s) as (Tl & Tq & Tf & Td & Tt).
  destruct (resolveTarget_resume_frame qt rt c) as (Tl' & Tq' & Tf' & Td' & Tt').
  destruct (resolveSource_resume_frame P now qs rs t) as (Sl & Sq & Sf & Ss).
  destruct (resolveSource_resume_frame P now qs rs c) as (Sl' & Sq' & Sf' & Ss').
  fold s in Sl', Sq', Sf', Ss'. fold t in Tl', Tq', Tf', Td', Tt'.
  destruct (resolveSource_resume_own P now qs rs c t Tl' Tq' Td') as (Ol & Oq & Od).
  fold s in Ol, Oq, Od.
  destruct (resolveTarget_resume_own qt rt c s Sl' Sq') as (Pl & Pq).
  fold t in Pl, Pq.
  repeat split; try congruence.
  - rewrite resolveTarget_resume_error. unfold t. rewrite resolveTarget_resume_error.
    destruct rt as [[?|]|?]; reflexivity.
  - rewrite resolveSource_resume_error. unfold s. rewrite resolveSource_resume_error.
    destruct rs as [[?|]|?]; reflexivity.
  - rewrite resolveTarget_resume_error, resolveSource_resume_error.
    unfold s, t. rewrite resolveTarget_resume_error, resolveSource_resume_error.
    destruct rs as [[?|]|?], rt as [[?|]|?]; cbn; try reflexivity; discriminate.
Qed.

Lemma completions_commute_witness :
  error (resolveTarget_resume (lit "New York")
           (fst (resolveLocation (Sample.host Sample.remote_up) (lit "New York")))
           (resolveSource_resume (Sample.host Sample.remote_up) Sample.now (lit "Atlantis")
              (fst (resolveLocation (Sample.host Sample.remote_up) (lit "Atlantis")))
              Sample.fresh))
  = error (resolveSource_resume (Sample.host Sample.remote_up) Sample.now (lit "Atlantis")
             (fst (resolveLocation (Sample.host Sample.remote_up) (lit "Atlantis")))
             (resolveTarget_resume (lit "New York")
                (fst (resolveLocation (Sample.host Sample.remote_up) (lit "New York")))
                Sample.fresh)).
Proof.
  apply (completions_commute (Sample.host Sample.remote_up) Sample.now (lit "Atlantis")
           (lit "New York")
           (fst (resolveLocation (Sample.host Sample.remote_up) (lit "Atlantis")))
           (fst (resolveLocation (Sample.host Sample.remote_up) (lit "New York")))
           Sample.fresh).
  reflexivity.
Defined.



(** X10. Swapping twice puts both locations and both query texts back,
    with the loading flags and the error untouched all along. The
    selected date is not put back: the second swap seeds it with the
    current time in the original source zone when that location is
    present and the host can format its zone, and otherwise keeps what
    the first swap left. *)
Theorem swap_twice_restores_slots (P : Platform) (first second : Z) (c : AppComponent) :
  let c1 := swapLocations P first c in
  let c2 := swapLocations P second c1 in
  sourceLocation c2 = sourceLocation c /\ targetLocation c2 = targetLocation c
  /\ sourceQuery c2 = sourceQuery c /\ targetQuery c2 = targetQuery c
  /\ isLoadingSource c2 = isLoadingSource c /\ isLoadingTarget c2 = isLoadingTarget c
  /\ error c2 = error c
  /\ selectedDate c2
     = match sourceLocation c with
       | Some s => seeded P second (ianaTimezone s) (selectedDate c1)
       | None => selectedDate c1
       end.
Proof.
  intros c1 c2. subst c2.
  destruct (swapLocations_fields P second c1) as (E1 & E2 & E3 & E4 & E5 & E6 & E7).
  destruct (swapLocations_fields P first c) as (F1 & F2 & F3 & F4 & F5 & F6 & F7).
  fold c1 in F1, F2, F3, F4, F5, F6, F7.
  rewrite swapLocations_date, F2. repeat split; congruence.
Qed.

(** ** More on the time converter *)

Section Conversions.

Variable P : Platform.
Variable now : Z.

(** The readings are determined by the two locations and the date. *)
Lemma reads_unique (c c' : AppComponent) (k k' : Reading) :
  sourceLocation c' = sourceLocation c -> targetLocation c' = targetLocation c ->
  reads P now c k -> reads P now c' k' ->
  sourceWall k' = sourceWall k /\ targetWall k' = targetWall k
  /\ (selectedDate c' = selectedDate c ->
      inputWallTime k' = inputWallTime k /\ targetWallTime k' = targetWallTime k).
Proof.
  intros Es Et
         (src & tgt & srcStr & tgtStr & Hs & Ht & _ & _ & Hss & Hts & Hsw & Htw & Hi & Ho)
         (src' & tgt' & srcStr' & tgtStr' & Hs' & Ht' & _ & _ & Hss' & Hts' & Hsw' & Htw'
          & Hi' & Ho').
  rewrite Es, Hs in Hs'. injection Hs' as <-. rewrite Et, Ht in Ht'. injection Ht' as <-.
  rewrite Hss in Hss'. injection Hss' as <-. rewrite Hts in Hts'. injection Hts' as <-.
  rewrite Hsw in Hsw'. injection Hsw' as Ew. rewrite Htw in Htw'. injection Htw' as Ev.
  split; [congruence|]. split; [congruence|].
  intros Ed. rewrite Ed, Hi in Hi'. injection Hi' as Ei.
  split; [congruence|]. rewrite <- Ew, <- Ev, <- Ei, Ho in Ho'. congruence.
Qed.

(** An integer below 2^53 in absolute value is a Number. *)
Lemma Z_of_Number_of_Z (d : Z) : Z.abs d < 2 ^ 53 -> Z_of_Number (Number_of_Z d) = Some d.
Proof.
  intros Hd. destruct d as [|p|p]; [reflexivity | |];
    unfold Number_of_Z, binary_normalize;
    [destruct (binary_round_small false p Hd) as (m & -> & _ & Hm)
    |destruct (binary_round_small true p Hd) as (m & -> & _ & Hm)];
    pose proof (digits_le_53 p Hd) as Hn;
    cbn [Z_of_Number cond_Zopp]; unfold floor_abs; rewrite Hm;
    (destruct (Z.leb_spec 0 (Z.pos (digits2_pos p) - 53));
     [replace (Z.pos (digits2_pos p) - 53) with 0 by lia;
      replace (53 - Z.pos (digits2_pos p)) with 0 by lia;
      change (2 ^ 0) with 1; f_equal; lia
     |replace (- (Z.pos (digits2_pos p) - 53)) with (53 - Z.pos (digits2_pos p)) by lia;
      rewrite Z.div_mul by (apply Z.pow_nonzero; lia); reflexivity]).
Qed.

(** Below 2^53 the target time value is the input plus the offset. *)
Lemma reads_target (c : AppComponent) (k : Reading) :
  reads P now c k -> Z.abs (targetWall k - sourceWall k) < 2 ^ 53 ->
  targetWallTime k = inputWallTime k + (targetWall k - sourceWall k).
Proof.
  intros (src & tgt & srcStr & tgtStr & _ & _ & _ & _ & _ & _ & _ & _ & _ & Ho) Hd.
  unfold time_plus in Ho. rewrite (Z_of_Number_of_Z _ Hd) in Ho.
  unfold TimeClip in Ho. destruct (Z.abs _ <=? JSDate.maxTime); congruence.
Qed.

(** The result of a conversion in terms of its readings. *)
Lemma convertedResult_of_reads (c : AppComponent) (k : Reading) :
  reads P now c k ->
  exists r,
    convertedResult P now c = Some r
    /\ sourceTimeDisplay r = Intl_format P (inputWallTime k)
    /\ targetTimeDisplay r = Intl_format P (targetWallTime k)
    /\ diffHours r
       = toFixed1 P (Number_div (Number_of_Z (targetWall k - sourceWall k))
                       (Number_of_Z msPerHour))
    /\ isNextDay r
       = negb (Date_getDate P (targetWallTime k) =? Date_getDate P (inputWallTime k)).
Proof.
  intros Hk. destruct (convertedResult_reads P now c k Hk) as [r Hr].
  destruct (convertedResult_Some P now c r Hr) as (k' & Hk' & H1 & H2 & H3 & H4).
  destruct (reads_unique c c k k' eq_refl eq_refl Hk Hk') as (Es & Et & Ei).
  destruct (Ei eq_refl) as [Ein Eout].
  rewrite Es, Et in H3. rewrite Ein in H1. rewrite Eout in H2. rewrite Ein, Eout in H4.
  exists r. repeat split; assumption.
Qed.

(** Offsets that are whole quarters of an hour print exactly. *)
Lemma toFixed1_quarters (d q : Z) :
  d = 900000 * q -> Z.abs d < 2 ^ 53 ->
  toFixed1 P (Number_div (Number_of_Z d) (Number_of_Z msPerHour))
  = signed_tenths d ((5 * Z.abs q + 1) / 2).
Proof.
  intros Hq Hd. destruct d as [|p|p].
  - replace q with 0 by lia. reflexivity.
  - destruct (Number_div_hour false p Hd) as (m & e & Hx & He & Hb).
    destruct (tenths_near p m e Hd ltac:(lia) Hb) as (Hbig & _ & _).
    unfold Number_of_Z at 1, binary_normalize. rewrite Hx. unfold toFixed1, signed_tenths.
    destruct (Z.leb_spec (10 ^ 21) (floor_abs m e)); [lia|]. cbn [Z.ltb Z.compare].
    assert (Ht : tenths m e = (5 * Z.abs q + 1) / 2); [|rewrite Ht; reflexivity].
    unfold tenths. destruct (Z.leb_spec 0 e); [lia|].
    replace (- e) with (2 + (- e - 2)) in * by lia.
    replace (1 - e) with (3 + (- e - 2)) by lia.
    rewrite !Z.pow_add_r in * by lia.
    assert (HW : 0 < 2 ^ (- e - 2)) by (apply Z.pow_pos_nonneg; lia).
    set (W := 2 ^ (- e - 2)) in *.
    change (2 ^ 2) with 4 in *. change (2 ^ 3) with 8.
    change (msPerHour / 2) with 1800000 in Hb. change msPerHour with 3600000 in Hb.
    assert (Hm : Z.pos m = Z.abs q * W) by lia.
    rewrite Hm.
    replace (20 * (Z.abs q * W) + 4 * W) with (W * (4 * (5 * Z.abs q + 1))) by ring.
    replace (8 * W) with (W * (4 * 2)) by ring.
    rewrite !Z.div_mul_cancel_l by lia. reflexivity.
  - destruct (Number_div_hour true p Hd) as (m & e & Hx & He & Hb).
    destruct (tenths_near p m e Hd ltac:(lia) Hb) as (Hbig & _ & _).
    unfold Number_of_Z at 1, binary_normalize. rewrite Hx. unfold toFixed1, signed_tenths.
    destruct (Z.leb_spec (10 ^ 21) (floor_abs m e)); [lia|]. cbn [Z.ltb Z.compare].
    assert (Ht : tenths m e = (5 * Z.abs q + 1) / 2); [|rewrite Ht; reflexivity].
    unfold tenths. destruct (Z.leb_spec 0 e); [lia|].
    replace (- e) with (2 + (- e - 2)) in * by lia.
    replace (1 - e) with (3 + (- e - 2)) by lia.
    rewrite !Z.pow_add_r in * by lia.
    assert (HW : 0 < 2 ^ (- e - 2)) by (apply Z.pow_pos_nonneg; lia).
    set (W := 2 ^ (- e - 2)) in *.
    change (2 ^ 2) with 4 in *. change (2 ^ 3) with 8.
    change (msPerHour / 2) with 1800000 in Hb. change msPerHour with 3600000 in Hb.
    assert (Hm : Z.pos m = Z.abs q * W) by lia.
    rewrite Hm.
    replace (20 * (Z.abs q * W) + 4 * W) with (W * (4 * (5 * Z.abs q + 1))) by ring.
    replace (8 * W) with (W * (4 * 2)) by ring.
    rewrite !Z.div_mul_cancel_l by lia. reflexivity.
Qed.

End Conversions.

(** X11. Between two locations of the same time zone the conversion
    shows no offset: [diffHours] is ["0.0"], the target time is the
    source time and [isNextDay] is [false]. *)
Theorem same_zone_is_identity (P : Platform) (now : Z) (c : AppComponent)
    (src tgt : LocationInfo) (r : ConversionResult) :
  sourceLocation c = Some src -> targetLocation c = Some tgt ->
  ianaTimezone tgt = ianaTimezone src ->
  convertedResult P now c = Some r ->
  diffHours r = lit "0.0" /\ targetTimeDisplay r = sourceTimeDisplay r
  /\ isNextDay r = false.
Proof.
  intros Hs Ht Hz H.
  destruct (convertedResult_Some P now c r H) as (k & Hk & H1 & H2 & H3 & H4).
  destruct Hk as (src' & tgt' & srcStr & tgtStr & Hs' & Ht' & _ & _ & Hss & Hts & Hsw & Htw
                  & Hi & Ho).
  rewrite Hs in Hs'. injection Hs' as <-. rewrite Ht in Ht'. injection Ht' as <-.
  rewrite Hz, Hss in Hts. injection Hts as <-. rewrite Hsw in Htw. injection Htw as Ew.
  rewrite <- Ew, Z.sub_diag in H3, Ho.
  assert (Et : targetWallTime k = inputWallTime k).
  { unfold time_plus, TimeClip in Ho. cbn [Number_of_Z binary_normalize Z_of_Number] in Ho.
    rewrite Z.add_0_r in Ho. destruct (Z.abs _ <=? JSDate.maxTime); congruence. }
  rewrite H3, H2, H1, H4, Et, Z.eqb_refl. repeat split.
Qed.

Lemma same_zone_is_identity_witness :
  exists r,
    convertedResult (Sample.host Sample.remote_up) Sample.now Scenes.london_london = Some r
    /\ diffHours r = lit "0.0" /\ targetTimeDisplay r = sourceTimeDisplay r
    /\ isNextDay r = false.
Proof.
  eexists. split; [reflexivity|].
  apply (same_zone_is_identity (Sample.host Sample.remote_up) Sample.now
           Scenes.london_london Sample.london Sample.london); reflexivity.
Defined.

(** X12. The offset shown does not depend on the selected date: it is
    the offset at the instant of the conversion. Two conversions at one
    instant between the same two locations show the same [diffHours],
    whatever dates are selected. *)
Theorem diffHours_ignores_date (P : Platform) (now : Z) (c c' : AppComponent)
    (r r' : ConversionResult) :
  sourceLocation c' = sourceLocation c -> targetLocation c' = targetLocation c ->
  convertedResult P now c = Some r -> convertedResult P now c' = Some r' ->
  diffHours r' = diffHours r.
Proof.
  intros Es Et H H'.
  destruct (convertedResult_Some P now c r H) as (k & Hk & _ & _ & -> & _).
  destruct (convertedResult_Some P now c' r' H') as (k' & Hk' & _ & _ & -> & _).
  destruct (reads_unique P now c c' k k' Es Et Hk Hk') as (-> & -> & _). reflexivity.
Qed.

Lemma diffHours_ignores_date_witness :
  exists r r',
    convertedResult (Sample.host Sample.remote_up) Sample.now Sample.london_newyork = Some r
    /\ convertedResult (Sample.host Sample.remote_up) Sample.now Scenes.london_newyork_now
       = Some r'
    /\ diffHours r' = diffHours r.
Proof.
  eexists. eexists. split; [reflexivity|]. split; [reflexivity|].
  apply (diffHours_ignores_date (Sample.host Sample.remote_up) Sample.now
           Sample.london_newyork Scenes.london_newyork_now); reflexivity.
Defined.

(** X13. The target time is the selected time moved by the offset. When
    the host gives the readings and the two wall clocks are less than
    2^53 ms apart, the conversion has a result that displays the
    selected date as the source time and the selected date plus the
    offset as the target time, and [isNextDay] compares the days of the
    month of these two. *)
Theorem target_is_input_plus_offset (P : Platform) (now : Z) (c : AppComponent)
    (k : Reading) :
  reads P now c k ->
  Z.abs (targetWall k - sourceWall k) < 2 ^ 53 ->
  let input := inputWallTime k in
  let offset := targetWall k - sourceWall k in
  exists r,
    convertedResult P now c = Some r
    /\ sourceTimeDisplay r = Intl_format P input
    /\ targetTimeDisplay r = Intl_format P (input + offset)
    /\ isNextDay r = negb (Date_getDate P (input + offset) =? Date_getDate P input).
Proof.
  intros Hk Hd input offset. subst input offset.
  destruct (convertedResult_of_reads P now c k Hk) as (r & Hr & H1 & H2 & _ & H4).
  rewrite (reads_target P now c k Hk Hd) in H2, H4.
  exists r. repeat split; assumption.
Qed.

Lemma target_is_input_plus_offset_witness :
  exists r,
    convertedResult (Sample.host Sample.remote_up) Sample.now Sample.london_newyork = Some r
    /\ sourceTimeDisplay r = Intl_format (Sample.host Sample.remote_up) 1718416800000
    /\ targetTimeDisplay r
       = Intl_format (Sample.host Sample.remote_up)
           (1718416800000 + (1718445600000 - 1718463600000))
    /\ isNextDay r
       = negb (Date_getDate (Sample.host Sample.remote_up)
                 (1718416800000 + (1718445600000 - 1718463600000))
               =? Date_getDate (Sample.host Sample.remote_up) 1718416800000).
Proof.
  apply (target_is_input_plus_offset (Sample.host Sample.remote_up) Sample.now
           Sample.london_newyork
           {| sourceWall := 1718463600000; targetWall := 1718445600000;
              inputWallTime := 1718416800000; targetWallTime := 1718398800000 |}).
  - exists Sample.london, Sample.newyork,
      (lit "6/15/2024, 15:00:00"), (lit "6/15/2024, 10:00:00").
    repeat split; try reflexivity; discriminate.
  - reflexivity.
Defined.

(** X14. Converting back gives the time one started from. If a
    conversion from A to B and one from B to A are made at the same
    instant, and the date selected for the second is the target time of
    the first, then the target time of the second is the date selected
    for the first: the two results show the same two times, exchanged,
    and agree on [isNextDay]. *)
Theorem conversion_round_trip (P : Platform) (now : Z) (c c' : AppComponent)
    (k k' : Reading) :
  sourceLocation c' = targetLocation c -> targetLocation c' = sourceLocation c ->
  reads P now c k -> reads P now c' k' ->
  inputWallTime k' = targetWallTime k ->
  Z.abs (targetWall k - sourceWall k) < 2 ^ 53 ->
  targetWallTime k' = inputWallTime k
  /\ exists r r',
       convertedResult P now c = Some r /\ convertedResult P now c' = Some r'
       /\ sourceTimeDisplay r' = targetTimeDisplay r
       /\ targetTimeDisplay r' = sourceTimeDisplay r
       /\ isNextDay r' = isNextDay r.
Proof.
  intros Es Et Hk Hk' Hin Hd.
  destruct (reads_exchanged P now c c' k k' Es Et Hk Hk') as [Ew Ev].
  assert (Hd' : Z.abs (targetWall k' - sourceWall k') < 2 ^ 53) by (rewrite Ew, Ev; lia).
  pose proof (reads_target P now c k Hk Hd) as Ht.
  pose proof (reads_target P now c' k' Hk' Hd') as Ht'.
  assert (Hback : targetWallTime k' = inputWallTime k) by lia.
  split; [exact Hback|].
  destruct (convertedResult_of_reads P now c k Hk) as (r & Hr & H1 & H2 & _ & H4).
  destruct (convertedResult_of_reads P now c' k' Hk') as (r' & Hr' & H1' & H2' & _ & H4').
  exists r, r'. rewrite H1, H2, H1', H2', H4, H4', Hin, Hback.
  rewrite (Z.eqb_sym (Date_getDate P (inputWallTime k))). repeat split; assumption.
Qed.

Lemma conversion_round_trip_witness :
  exists r r',
    convertedResult (Sample.host Sample.remote_up) Sample.now Scenes.london_newyork_now
    = Some r
    /\ convertedResult (Sample.host Sample.remote_up) Sample.now
         (swapLocations (Sample.host Sample.remote_up) Sample.now Scenes.london_newyork_now)
       = Some r'
    /\ sourceTimeDisplay r' = targetTimeDisplay r
    /\ targetTimeDisplay r' = sourceTimeDisplay r
    /\ isNextDay r' = isNextDay r.
Proof.
  apply (conversion_round_trip (Sample.host Sample.remote_up) Sample.now
           Scenes.london_newyork_now
           (swapLocations (Sample.host Sample.remote_up) Sample.now Scenes.london_newyork_now)
           {| sourceWall := 1718463600000; targetWall := 1718445600000;
              inputWallTime := 1718463600000; targetWallTime := 1718445600000 |}
           {| sourceWall := 1718445600000; targetWall := 1718463600000;
              inputWallTime := 1718445600000; targetWallTime := 1718463600000 |}).
  - reflexivity.
  - reflexivity.
  - exists Sample.london, Sample.newyork,
      (lit "6/15/2024, 15:00:00"), (lit "6/15/2024, 10:00:00").
    repeat split; try reflexivity; discriminate.
  - exists Sample.newyork, Sample.london,
      (lit "6/15/2024, 10:00:00"), (lit "6/15/2024, 15:00:00").
    repeat split; try reflexivity; discriminate.
  - reflexivity.
  - reflexivity.
Defined.

(** X15. Offsets that are whole quarters of an hour, as the offsets
    between time zones are, print exactly: for an offset of [q]
    quarters the conversion has a result whose [diffHours] is the sign
    of the offset followed by ((5|q| + 1) / 2) tenths, that is [q / 4]
    with a quarter or three quarters rounded away from zero. *)
Theorem quarter_hours_print_exactly (P : Platform) (now : Z) (c : AppComponent)
    (k : Reading) (q : Z) :
  reads P now c k ->
  targetWall k - sourceWall k = 900000 * q ->
  Z.abs (targetWall k - sourceWall k) < 2 ^ 53 ->
  exists r,
    convertedResult P now c = Some r
    /\ diffHours r = signed_tenths (targetWall k - sourceWall k) ((5 * Z.abs q + 1) / 2).
Proof.
  intros Hk Hq Hd.
  destruct (convertedResult_of_reads P now c k Hk) as (r & Hr & _ & _ & H3 & _).
  exists r. split; [exact Hr|]. rewrite H3. apply (toFixed1_quarters P _ q Hq Hd).
Qed.

Lemma quarter_hours_print_exactly_witness :
  exists r,
    convertedResult (Sample.host Sample.remote_up) Sample.now Sample.london_newyork = Some r
    /\ diffHours r
       = signed_tenths (1718445600000 - 1718463600000) ((5 * Z.abs (-20) + 1) / 2).
Proof.
  apply (quarter_hours_print_exactly (Sample.host Sample.remote_up) Sample.now
           Sample.london_newyork
           {| sourceWall := 1718463600000; targetWall := 1718445600000;
              inputWallTime := 1718416800000; targetWallTime := 1718398800000 |} (-20)).
  - exists Sample.london, Sample.newyork,
      (lit "6/15/2024, 15:00:00"), (lit "6/15/2024, 10:00:00").
    repeat split; try reflexivity; discriminate.
  - reflexivity.
  - reflexivity.
Defined.

(** X16. A location whose time zone name the host does not know gives no
    conversion: whether it is the source or the target, and whatever
    the other location and the date, [convertedResult] is [null]. *)
Theorem unknown_zone_gives_no_result (P : Platform) (now : Z) (c : AppComponent)
    (l : LocationInfo) :
  sourceLocation c = Some l \/ targetLocation c = Some l ->
  Date_toLocaleString P (ianaTimezone l) now = None ->
  convertedResult P now c = None.
Proof.
  intros Hl Hz. unfold convertedResult.
  destruct (sourceLocation c) as [src|] eqn:Hs; [|reflexivity].
  destruct (targetLocation c) as [tgt|] eqn:Ht; [|reflexivity].
  destruct (eqb (selectedDate c) []); [reflexivity|].
  unfold convertedResult_try, toLocaleString.
  destruct (nth_error (split 84%N (selectedDate c)) 1); [|reflexivity]. cbn [bind].
  destruct Hl as [E | E]; injection E as ->.
  - rewrite Hz. reflexivity.
  - destruct (Date_toLocaleString P (ianaTimezone src) now); [|reflexivity].
    cbn [bind]. rewrite Hz. reflexivity.
Qed.

Lemma unknown_zone_gives_no_result_witness :
  convertedResult (Sample.host Sample.remote_up) Sample.now Sample.london_elbonia = None.
Proof.
  apply (unknown_zone_gives_no_result (Sample.host Sample.remote_up) Sample.now
           Sample.london_elbonia Sample.elbonia).
  - right. reflexivity.
  - reflexivity.
Defined.

(** X17. A target time beyond the last time value a [Date] can hold,
    8.64e15 ms either side of the epoch, gives no conversion: when the
    selected date plus the offset leaves that range the computed date
    is invalid and [convertedResult] is [null]. *)
Theorem target_out_of_range (P : Platform) (now : Z) (c : AppComponent)
    (src tgt : LocationInfo) (srcStr tgtStr : JSString) (a b input : Z) :
  sourceLocation c = Some src -> targetLocation c = Some tgt ->
  Date_toLocaleString P (ianaTimezone src) now = Some srcStr ->
  Date_toLocaleString P (ianaTimezone tgt) now = Some tgtStr ->
  Date_of_string P srcStr = Some a -> Date_of_string P tgtStr = Some b ->
  Date_of_string P (selectedDate c) = Some input ->
  Z.abs (b - a) < 2 ^ 53 ->
  JSDate.maxTime < Z.abs (input + (b - a)) ->
  convertedResult P now c = None.
Proof.
  intros Hs Ht Hss Hts Ha Hb Hi Hd Hfar. unfold convertedResult. rewrite Hs, Ht.
  destruct (eqb (selectedDate c) []); [reflexivity|].
  unfold convertedResult_try, toLocaleString.
  destruct (nth_error (split 84%N (selectedDate c)) 1); [|reflexivity].
  rewrite Hss, Hts. cbn [bind]. rewrite Ha, Hb, Hi. cbn [time_diff formatDate bind].
  unfold time_plus. rewrite (Z_of_Number_of_Z (b - a) Hd). unfold TimeClip.
  destruct (Z.leb_spec (Z.abs (input + (b - a))) JSDate.maxTime); [lia | reflexivity].
Qed.

Lemma target_out_of_range_witness :
  convertedResult Scenes.far_host Sample.now Scenes.newyork_london_far = None.
Proof.
  apply (target_out_of_range Scenes.far_host Sample.now Scenes.newyork_london_far
           Sample.newyork Sample.london
           (lit "6/15/2024, 10:00:00") (lit "6/15/2024, 15:00:00")
           1718445600000 1718463600000 8639999996400000); reflexivity.
Defined.
